(** * LegiTrack: the update-ingestion pipeline

    A shallow embedding of the Go sources [storage.go], [scraper.go],
    [main.go], of the type declarations [Source] and [Update], of the
    configuration accessors and of the data gathering of [reporter.go],
    followed by the properties of the pipeline.

    Modelling conventions.
    - A [time.Time] is an instant in UTC, counted in nanoseconds since the
      Unix epoch (every [FetchedAt] the scrapers build is [time.Now().UTC()]).
    - The [updates] table is the list of its rows in rowid order.  The
      only statements the program runs against it are the INSERT of
      [SaveUpdate] and the SELECTs of the five query methods; each one is
      written out as the list computation that SQLite performs for it.
    - The text that [SaveUpdate] stores in [fetched_at] is
      [FetchedAt.Format(time.RFC3339)], i.e. [YYYY-MM-DDTHH:MM:SSZ]: the
      instant cut to whole seconds.  The column is represented by that
      number of seconds; for UTC instants the byte order of the text is the
      numeric order of the seconds, and SQLite's [date(fetched_at)] is the
      calendar day holding that second.
    - A Go run-time panic (slice bounds, nil dereference) is an outcome of
      its own, distinct from a returned [error].
    - Failures of the environment (I/O errors of the database file, a
      cancelled context inside a database call) are outside the model; the
      one database error that the statements themselves can raise, the
      violation of the UNIQUE constraint, is modelled. *)

From Stdlib Require Import ZArith List String Ascii Bool Lia.
From Stdlib Require Import Sorting.Permutation Sorting.Sorted.
From stdpp Require Import base option list strings sorting gmap.

Local Open Scope string_scope.
Local Open Scope Z_scope.
Local Open Scope list_scope.

(** ** Outcomes of Go code *)

(** A Go [error] value; [nil] is [None]. *)
Definition error : Type := option string.

Inductive outcome (A : Type) : Type :=
| Returns (a : A)
| Panics (msg : string).
Arguments Returns {A} a.
Arguments Panics {A} msg.

(** [fmt.Errorf("prefix: %w", err)]. *)
Definition wrap (prefix e : string) : string := prefix +:+ ": " +:+ e.

(** The Go slice expression [s[:n]] on a string: a run-time panic when
    [n] exceeds [len(s)]. *)
Definition slice_to (n : nat) (s : string) : outcome string :=
  if (n <=? String.length s)%nat
  then Returns (substring 0 n s)
  else Panics "slice bounds out of range".

(** ** Data model *)

Definition Time : Type := Z.

Definition nanos_per_second : Z := 1000000000.
Definition seconds_per_day : Z := 86400.

(** [t1.Before(t2)]. *)
Definition Before (t1 t2 : Time) : bool := t1 <? t2.

(** [type Source struct]; the URL field is [Source_URL] here because
    [Update] has a field of the same name. *)
Record Source : Type := mkSource {
  ID : string;
  Source_URL : string;
  Cron : string;
  JSRendered : bool;
  MaxRetries : Z;
  Timeout : Z
}.

(** [type Update struct]. *)
Record Update : Type := mkUpdate {
  SourceID : string;
  URL : string;
  FetchedAt : Time;
  Hash : string;
  Body : list Byte.byte;
  StatusCode : Z;
  Success : bool;
  RetryCount : Z;
  ErrorDetail : string;
  Title : string;
  Summary : string;
  ContentType : string
}.

(** The zero value [Update{}] that the scrapers and the row scanners start
    from. *)
Definition zero_Update : Update :=
  mkUpdate "" "" 0 "" [] 0 false 0 "" "" "" "".

(** ** The [updates] table

    One record per row, one field per column of [initSchema]; a nullable
    column is an [option].  [created_at] (filled by the DEFAULT clause and
    read by no statement of the program) is left out. *)
Record Row : Type := mkRow {
  col_id : Z;
  col_source_id : string;
  col_url : string;
  col_fetched_at : Z;
  col_hash : option string;
  col_status_code : Z;
  col_success : bool;
  col_retry_count : Z;
  col_error_detail : option string;
  col_body_size : option Z;
  col_title : option string;
  col_summary : option string;
  col_content_type : option string
}.

Definition Store : Type := list Row.

(** [COALESCE(c, '')]. *)
Definition coalesce (c : option string) : string := default "" c.

(** [t.Format(time.RFC3339)] as stored: the whole seconds of the instant. *)
Definition format_rfc3339 (t : Time) : Z := t / nanos_per_second.

(** [time.Parse(time.RFC3339, text)] of a stored text. *)
Definition parse_rfc3339 (secs : Z) : Time := secs * nanos_per_second.

(** [t.Format("2006-01-02")]: the calendar day of the instant, as a day
    number. *)
Definition format_date (t : Time) : Z :=
  t / (seconds_per_day * nanos_per_second).

(** SQLite's [date(fetched_at)]. *)
Definition sql_date (secs : Z) : Z := secs / seconds_per_day.

(** [hash = ?] in a WHERE clause: never true of a NULL. *)
Definition hash_is (h : string) (r : Row) : bool :=
  match col_hash r with
  | Some x => String.eqb x h
  | None => false
  end.

(** The UNIQUE constraint on [hash] as SQLite checks it for a new value:
    NULLs are distinct from everything, any other text (the empty text
    too) conflicts with an equal one. *)
Definition unique_conflict (s : Store) (h : option string) : bool :=
  match h with
  | Some x => existsb (hash_is x) s
  | None => false
  end.

(** The INSERT statement of [SaveUpdate]: twelve bound values, the rowid
    from AUTOINCREMENT (no row is ever deleted, so it is the row count
    plus one). *)
Definition exec_insert (s : Store) (r : Row) : Store * error :=
  if unique_conflict s (col_hash r)
  then (s, Some "UNIQUE constraint failed: updates.hash")
  else ((s ++ [r])%list, None).

(** The row that [SaveUpdate] binds.  The driver binds a Go string as a
    text value, the empty string as the empty text (never as NULL), and
    [len(update.Body)] as an integer. *)
Definition row_of_update (s : Store) (update : Update) : Row :=
  {| col_id := Z.of_nat (List.length s) + 1;
     col_source_id := SourceID update;
     col_url := URL update;
     col_fetched_at := format_rfc3339 (FetchedAt update);
     col_hash := Some (Hash update);
     col_status_code := StatusCode update;
     col_success := Success update;
     col_retry_count := RetryCount update;
     col_error_detail := Some (ErrorDetail update);
     col_body_size := Some (Z.of_nat (List.length (Body update)));
     col_title := Some (Title update);
     col_summary := Some (Summary update);
     col_content_type := Some (ContentType update) |}.

(** The eight columns scanned by [GetLatestUpdateBySource] and
    [GetUpdateByHash]; the other fields keep their zero value. *)
Definition scan8 (r : Row) : Update :=
  {| SourceID := col_source_id r;
     URL := col_url r;
     FetchedAt := parse_rfc3339 (col_fetched_at r);
     Hash := coalesce (col_hash r);
     Body := [];
     StatusCode := col_status_code r;
     Success := col_success r;
     RetryCount := col_retry_count r;
     ErrorDetail := coalesce (col_error_detail r);
     Title := "";
     Summary := "";
     ContentType := "" |}.

(** The eleven columns scanned by [GetUpdatesByDateRange]. *)
Definition scan11 (r : Row) : Update :=
  {| SourceID := col_source_id r;
     URL := col_url r;
     FetchedAt := parse_rfc3339 (col_fetched_at r);
     Hash := coalesce (col_hash r);
     Body := [];
     StatusCode := col_status_code r;
     Success := col_success r;
     RetryCount := col_retry_count r;
     ErrorDetail := coalesce (col_error_detail r);
     Title := coalesce (col_title r);
     Summary := coalesce (col_summary r);
     ContentType := coalesce (col_content_type r) |}.

(** ** [storage.go] *)

(** [GetUpdateByHash]: the empty hash is answered without a query;
    otherwise [WHERE hash = ? LIMIT 1]. *)
Definition GetUpdateByHash (s : Store) (hash : string)
  : option Update * bool * error :=
  if String.eqb hash "" then (None, false, None)
  else
    match List.find (hash_is hash) s with
    | None => (None, false, None)
    | Some r => (Some (scan8 r), true, None)
    end.

(** [SaveUpdate]. *)
Definition SaveUpdate (s : Store) (update : Update) : outcome (Store * error) :=
  let insert :=
    match exec_insert s (row_of_update s update) with
    | (s', Some e) => Returns (s', Some (wrap "failed to save update" e))
    | (s', None) => Returns (s', None)
    end in
  if negb (String.eqb (Hash update) "") then
    match GetUpdateByHash s (Hash update) with
    | (_, _, Some e) => Returns (s, Some (wrap "failed to check existing hash" e))
    | (_, true, None) =>
        (* the log line evaluates update.Hash[:8] before returning nil *)
        match slice_to 8 (Hash update) with
        | Panics msg => Panics msg
        | Returns _ => Returns (s, None)
        end
    | (_, false, None) => insert
    end
  else insert.

(** [ORDER BY fetched_at DESC]: a row comes before every row that is not
    more recent.  SQLite leaves the order of rows with equal keys open;
    the model fixes one such order (a merge sort of the rows in rowid
    order) and no property below depends on which. *)
Definition newer_first (r1 r2 : Row) : Prop :=
  col_fetched_at r2 <= col_fetched_at r1.

#[global] Instance newer_first_dec : RelDecision newer_first.
Proof. intros r1 r2. unfold newer_first. apply _. Defined.

#[global] Instance newer_first_total : Total newer_first.
Proof. intros r1 r2. unfold newer_first. lia. Qed.

#[global] Instance newer_first_trans : Transitive newer_first.
Proof. intros r1 r2 r3. unfold newer_first. lia. Qed.

Definition order_by_fetched_at_desc (rows : list Row) : list Row :=
  merge_sort newer_first rows.

(** [WHERE source_id = ? AND success = 1]. *)
Definition successful_of (sourceID : string) (r : Row) : bool :=
  String.eqb (col_source_id r) sourceID && col_success r.

(** [GetLatestUpdateBySource]: [(nil, nil)] on [sql.ErrNoRows]. *)
Definition GetLatestUpdateBySource (s : Store) (sourceID : string)
  : option Update * error :=
  match order_by_fetched_at_desc (List.filter (successful_of sourceID) s) with
  | [] => (None, None)
  | r :: _ => (Some (scan8 r), None)
  end.

(** [WHERE date(fetched_at) >= date(?) AND date(fetched_at) <= date(?)]
    with the two parameters [startDate.Format("2006-01-02")] and
    [endDate.Format("2006-01-02")]. *)
Definition in_date_range (startDate endDate : Time) (r : Row) : bool :=
  (format_date startDate <=? sql_date (col_fetched_at r))
  && (sql_date (col_fetched_at r) <=? format_date endDate).

(** [GetUpdatesByDateRange]. *)
Definition GetUpdatesByDateRange (s : Store) (startDate endDate : Time)
  : list Update * error :=
  (List.map scan11
     (order_by_fetched_at_desc
        (List.filter (in_date_range startDate endDate) s)),
   None).

(** [WHERE date(fetched_at) = date(?)]. *)
Definition on_date (date : Time) (r : Row) : bool :=
  sql_date (col_fetched_at r) =? format_date date.

(** [COUNT( * )] and [COUNT(CASE WHEN c THEN 1 END)]. *)
Definition sql_count (rows : list Row) : Z := Z.of_nat (List.length rows).

Definition sql_count_when (c : Row -> bool) (rows : list Row) : Z :=
  sql_count (List.filter c rows).

(** [SUM(body_size)]: NULL when no row has a value, else the sum of the
    values.  The sum is taken in [Z]; SQLite's overflow error needs
    2^63 bytes of bodies recorded for one calendar day. *)
Definition sql_sum_body_size (rows : list Row) : option Z :=
  match omap col_body_size rows with
  | [] => None
  | x :: xs => Some (fold_left Z.add xs x)
  end.

(** [sql.NullInt64.Int64]: zero when the value is NULL. *)
Definition NullInt64_Int64 (v : option Z) : Z := default 0 v.

(** [COUNT(DISTINCT source_id)]. *)
Definition sql_count_distinct_source (rows : list Row) : Z :=
  Z.of_nat (List.length (remove_dups (List.map col_source_id rows))).

(** [success = 1] and [success = 0]. *)
Definition is_success (r : Row) : bool := col_success r.
Definition is_failure (r : Row) : bool := negb (col_success r).

(** [GetDailyStats].  The returned [map[string]interface{}] is a finite
    map from its keys to numbers; the value under ["date"] is the day
    number of [date.Format("2006-01-02")]. *)
Definition GetDailyStats (s : Store) (date : Time) : gmap string Z * error :=
  let rows := List.filter (on_date date) s in
  let totalUpdates := sql_count rows in
  let successfulUpdates := sql_count_when is_success rows in
  let failedUpdates := sql_count_when is_failure rows in
  let uniqueSources := sql_count_distinct_source rows in
  let totalSize := sql_sum_body_size rows in
  (<["date" := format_date date]>
     (<["total_updates" := totalUpdates]>
        (<["successful_updates" := successfulUpdates]>
           (<["failed_updates" := failedUpdates]>
              (<["unique_sources" := uniqueSources]>
                 (<["total_size" := NullInt64_Int64 totalSize]> ∅))))),
   None).

(** One result row of the grouped query of [GetSourceStats]. *)
Record GroupRow : Type := mkGroupRow {
  g_source_id : string;
  g_total_updates : Z;
  g_successful_updates : Z;
  g_failed_updates : Z;
  g_total_size : option Z
}.

(** [GROUP BY source_id]: one result row per source that has a row on
    the date. *)
Definition group_by_source (rows : list Row) : list GroupRow :=
  List.map
    (fun sid =>
       let grp := List.filter (fun r => String.eqb (col_source_id r) sid) rows in
       {| g_source_id := sid;
          g_total_updates := sql_count grp;
          g_successful_updates := sql_count_when is_success grp;
          g_failed_updates := sql_count_when is_failure grp;
          g_total_size := sql_sum_body_size grp |})
    (remove_dups (List.map col_source_id rows)).

(** [ORDER BY total_updates DESC]. *)
Definition more_updates_first (g1 g2 : GroupRow) : Prop :=
  g_total_updates g2 <= g_total_updates g1.

#[global] Instance more_updates_first_dec : RelDecision more_updates_first.
Proof. intros g1 g2. unfold more_updates_first. apply _. Defined.

#[global] Instance more_updates_first_total : Total more_updates_first.
Proof. intros g1 g2. unfold more_updates_first. lia. Qed.

#[global] Instance more_updates_first_trans : Transitive more_updates_first.
Proof. intros g1 g2 g3. unfold more_updates_first. lia. Qed.

(** The rows of the query of [GetSourceStats], in the order in which
    [rows.Next()] delivers them. *)
Definition source_stats_rows (s : Store) (date : Time) : list GroupRow :=
  merge_sort more_updates_first (group_by_source (List.filter (on_date date) s)).

(** The inner map built for one result row. *)
Definition stats_entry (g : GroupRow) : gmap string Z :=
  <["total_updates" := g_total_updates g]>
    (<["successful_updates" := g_successful_updates g]>
       (<["failed_updates" := g_failed_updates g]>
          (<["total_size" := NullInt64_Int64 (g_total_size g)]> ∅))).

(** The loop [for rows.Next() { ...; stats[sourceID] = ... }] over a Go
    map created empty. *)
Definition collect_stats (rows : list GroupRow) : gmap string (gmap string Z) :=
  fold_left (fun stats g => <[g_source_id g := stats_entry g]> stats) rows ∅.

(** [GetSourceStats]. *)
Definition GetSourceStats (s : Store) (date : Time)
  : gmap string (gmap string Z) * error :=
  (collect_stats (source_stats_rows s date), None).

(** ** [scraper.go]

    The output channel [out chan<- Update] is modelled by the list of the
    values sent on it, in order; a send is taken to complete (the channel
    is buffered and closed only at shutdown).  What the network does is an
    input of the model. *)

(** A [context.Context], as far as the scrapers depend on it: the value
    of [ctx.Err()], non-nil once the context is cancelled. *)
Record Context : Type := mkContext { ctx_Err : error }.

(** [context.Background()], and a context after its [cancel()]. *)
Definition Background : Context := mkContext None.
Definition Canceled : Context := mkContext (Some "context canceled").

(** What [h.client.Do(req)] followed by [io.ReadAll(resp.Body)] can do. *)
Inductive Transport : Type :=
| DoError (err : string)
| ReadError (status : Z) (err : string)
| Response (status : Z) (body : list Byte.byte).

Record World : Type := mkWorld {
  (** the error of [http.NewRequestWithContext(ctx, "GET", url, nil)] *)
  NewRequestWithContext : string -> error;
  (** the exchange for a request that could be built and is sent *)
  RoundTrip : string -> Transport;
  (** [time.Now().UTC()] *)
  Now : Time
}.

(** [h.client.Do(req)] for a request made with [ctx]: a context that is
    already cancelled fails the call with the context's error before
    anything is sent. *)
Definition client_Do (w : World) (ctx : Context) (url : string) : Transport :=
  match ctx_Err ctx with
  | Some err => DoError err
  | None => RoundTrip w url
  end.

Section Scrapers.

(** [hex.EncodeToString] of [sha256.Sum256(body)]. *)
Variable sha256_hex : list Byte.byte -> string.

(** [HTTPScraper.Scrape]: the values sent on [out] and the returned
    error. *)
Definition HTTPScraper_Scrape (w : World) (ctx : Context) (src : Source)
  : list Update * error :=
  match NewRequestWithContext w (Source_URL src) with
  | Some err => ([], Some (wrap "failed to create request" err))
  | None =>
      match client_Do w ctx (Source_URL src) with
      | DoError err =>
          ([ {| SourceID := ID src;
                URL := Source_URL src;
                FetchedAt := Now w;
                Hash := "";
                Body := [];
                StatusCode := 0;
                Success := false;
                RetryCount := 0;
                ErrorDetail := err;
                Title := ""; Summary := ""; ContentType := "" |} ],
           Some (wrap "failed to fetch URL" err))
      | ReadError status err =>
          ([ {| SourceID := ID src;
                URL := Source_URL src;
                FetchedAt := Now w;
                Hash := "";
                Body := [];
                StatusCode := status;
                Success := false;
                RetryCount := 0;
                ErrorDetail := err;
                Title := ""; Summary := ""; ContentType := "" |} ],
           Some (wrap "failed to read response body" err))
      | Response status body =>
          ([ {| SourceID := ID src;
                URL := Source_URL src;
                FetchedAt := Now w;
                Hash := sha256_hex body;
                Body := body;
                StatusCode := status;
                Success := true;
                RetryCount := 0;
                ErrorDetail := "";
                Title := ""; Summary := ""; ContentType := "" |} ],
           None)
      end
  end.

(** [BrowserScraper.Scrape]. *)
Definition BrowserScraper_Scrape (w : World) (ctx : Context) (src : Source)
  : list Update * error :=
  ([ {| SourceID := ID src;
        URL := Source_URL src;
        FetchedAt := Now w;
        Hash := "";
        Body := [];
        StatusCode := 0;
        Success := false;
        RetryCount := 0;
        ErrorDetail := "Browser scraping not implemented yet";
        Title := ""; Summary := ""; ContentType := "" |} ],
   Some "browser scraping not implemented").

(** ** [main.go] *)

(** [ScraperManager.Scrape]. *)
Definition ScraperManager_Scrape (w : World) (ctx : Context) (src : Source)
  : list Update * error :=
  if JSRendered src
  then BrowserScraper_Scrape w ctx src
  else HTTPScraper_Scrape w ctx src.

End Scrapers.

(** How the worker goroutine of [main] leaves one received update. *)
Inductive Handled : Type :=
| Skipped       (* duplicate content: [continue] before SaveUpdate *)
| SaveFailed    (* SaveUpdate returned an error: logged, [continue] *)
| Processed.    (* SaveUpdate returned nil *)

(** The call [storage.SaveUpdate(ctx, update)] and the log lines after it;
    a panic leaves the table as it is at that point. *)
Definition save_and_log (s : Store) (update : Update) : Store * outcome Handled :=
  match SaveUpdate s update with
  | Panics msg => (s, Panics msg)
  | Returns (s', Some _) => (s', Returns SaveFailed)
  | Returns (s', None) =>
      if Success update then
        (* the log line evaluates update.Hash[:8] *)
        match slice_to 8 (Hash update) with
        | Panics msg => (s', Panics msg)
        | Returns _ => (s', Returns Processed)
        end
      else (s', Returns Processed)
  end.

(** The body of [for update := range updates]. *)
Definition worker_step (s : Store) (update : Update) : Store * outcome Handled :=
  if negb (String.eqb (Hash update) "") then
    match GetUpdateByHash s (Hash update) with
    | (existingUpdate, exists_, _) =>
        (* a non-nil err is logged and the body goes on *)
        if exists_ then
          match existingUpdate with
          | None => (s, Panics "nil pointer dereference")
          | Some existing =>
              if negb (Before (FetchedAt existing) (FetchedAt update))
              then (s, Returns Skipped)
              else save_and_log s update
          end
        else save_and_log s update
    end
  else save_and_log s update.

(** The worker goroutine over the sequence of values received from the
    channel; a panic ends it (and the process). *)
Fixpoint worker (s : Store) (updates : list Update) : Store * outcome unit :=
  match updates with
  | [] => (s, Returns tt)
  | update :: rest =>
      match worker_step s update with
      | (s', Panics msg) => (s', Panics msg)
      | (s', Returns _) => worker s' rest
      end
  end.

(** ** The scheduler

    [main] builds its scheduler with [cron.New(cron.WithSeconds())] from
    the library robfig/cron (v3), which is not part of the repository.
    The part of the library that decides when an entry fires is modelled
    from the library's documentation: with [WithSeconds] an expression
    has exactly six whitespace-separated fields, in the order second,
    minute, hour, day of month, month, day of week; a field is a
    comma-separated list of [*], [?], [n], [a-b], each optionally followed
    by [/step]; the fields are kept as 64-bit sets with bit 63 marking a
    star.  The model covers the expressions made of numbers, [*], [?],
    ranges, steps and lists, such as the report expression of [main];
    the library also takes month and weekday names, [@] descriptors and
    a time-zone prefix, which lie outside the model: nothing below is
    stated about an expression of that kind, and what [main] does with
    the entries of the sources is stated for an arbitrary parser
    ([register_entries_with]). *)

Definition is_digit (c : ascii) : bool :=
  let n := nat_of_ascii c in (48 <=? n)%nat && (n <=? 57)%nat.

Fixpoint digits_value (acc : Z) (s : string) : option Z :=
  match s with
  | EmptyString => Some acc
  | String c rest =>
      if is_digit c
      then digits_value (10 * acc + (Z.of_nat (nat_of_ascii c) - 48)) rest
      else None
  end.

(** [mustParseInt]: a non-empty run of decimal digits within [int]. *)
Definition parse_int (s : string) : option Z :=
  match s with
  | EmptyString => None
  | _ =>
      match digits_value 0 s with
      | Some n => if n <=? 9223372036854775807 then Some n else None
      | None => None
      end
  end.

(** [strings.Split(s, sep)] for a one-character separator. *)
Fixpoint split_on (sep : ascii) (s : string) : list string :=
  match s with
  | EmptyString => [EmptyString]
  | String c rest =>
      if Ascii.eqb c sep then EmptyString :: split_on sep rest
      else
        match split_on sep rest with
        | [] => [String c EmptyString]
        | w :: ws => String c w :: ws
        end
  end.

Definition is_space (c : ascii) : bool :=
  let n := nat_of_ascii c in
  (n =? 32)%nat || ((9 <=? n)%nat && (n <=? 13)%nat).

Fixpoint fields_from (cur : string) (s : string) : list string :=
  let flush := match cur with EmptyString => [] | _ => [cur] end in
  match s with
  | EmptyString => flush
  | String c rest =>
      if is_space c then (flush ++ fields_from EmptyString rest)%list
      else fields_from (cur +:+ String c EmptyString) rest
  end.

(** [strings.Fields]. *)
Definition Fields (s : string) : list string := fields_from EmptyString s.

Record bounds : Type := mkBounds { b_min : Z; b_max : Z }.

Definition seconds : bounds := mkBounds 0 59.
Definition minutes : bounds := mkBounds 0 59.
Definition hours : bounds := mkBounds 0 23.
Definition dom : bounds := mkBounds 1 31.
Definition months : bounds := mkBounds 1 12.
Definition dow : bounds := mkBounds 0 6.

Definition starBit : Z := Z.shiftl 1 63.

(** [getBits(min, max, step)]: the set of [min], [min+step], ... up to
    [max]. *)
Definition getBits (lo hi step : Z) : Z :=
  fold_left
    (fun bits k =>
       let i := lo + Z.of_nat k in
       if (i - lo) mod step =? 0 then Z.lor bits (Z.shiftl 1 i) else bits)
    (seq 0 (Z.to_nat (hi - lo + 1))) 0.

(** [getRange(expr, r)]: one element of a comma-separated field. *)
Definition getRange (expr : string) (r : bounds) : option Z :=
  match split_on "/" expr with
  | [] => None
  | range :: stepPart =>
      let lowAndHigh := split_on "-" range in
      let singleDigit := (List.length lowAndHigh =? 1)%nat in
      let parsed : option (Z * Z * Z) :=
        match lowAndHigh with
        | [] => None
        | low :: rest =>
            if String.eqb low "*" || String.eqb low "?"
            then Some (b_min r, b_max r, starBit)
            else
              match parse_int low, rest with
              | Some start, [] => Some (start, start, 0)
              | Some start, [high] =>
                  match parse_int high with
                  | Some e => Some (start, e, 0)
                  | None => None
                  end
              | _, _ => None
              end
        end in
      match parsed with
      | None => None
      | Some (start, end0, extra0) =>
          let stepped : option (Z * Z * Z) :=
            match stepPart with
            | [] => Some (1, end0, extra0)
            | [st] =>
                match parse_int st with
                | Some step =>
                    Some (step,
                          (if singleDigit then b_max r else end0),
                          (if 1 <? step then 0 else extra0))
                | None => None
                end
            | _ => None
            end in
          match stepped with
          | None => None
          | Some (step, end_, extra) =>
              if (start <? b_min r) || (b_max r <? end_) || (end_ <? start)
                 || (step =? 0)
              then None
              else Some (Z.lor (getBits start end_ step) extra)
          end
      end
  end.

(** [getField(field, r)]: the union of the comma-separated elements. *)
Definition getField (field : string) (r : bounds) : option Z :=
  fold_left
    (fun acc expr =>
       match acc, getRange expr r with
       | Some bits, Some b => Some (Z.lor bits b)
       | _, _ => None
       end)
    (split_on "," field) (Some 0).

Record SpecSchedule : Type := mkSpecSchedule {
  Second : Z; Minute : Z; Hour : Z; Dom : Z; Month : Z; Dow : Z
}.

(** [Parser.Parse] of the parser that [cron.WithSeconds()] installs. *)
Definition Parse_WithSeconds (spec : string) : option SpecSchedule :=
  match Fields spec with
  | [f0; f1; f2; f3; f4; f5] =>
      match getField f0 seconds, getField f1 minutes, getField f2 hours,
            getField f3 dom, getField f4 months, getField f5 dow with
      | Some s, Some mi, Some h, Some d, Some mo, Some w =>
          Some (mkSpecSchedule s mi h d mo w)
      | _, _, _, _, _, _ => None
      end
  | _ => None
  end.

(** The calendar fields of an instant in the scheduler's time zone. *)
Record Clock : Type := mkClock {
  clk_second : Z; clk_minute : Z; clk_hour : Z;
  clk_day : Z; clk_month : Z; clk_weekday : Z
}.

Definition valid_Clock (t : Clock) : Prop :=
  0 <= clk_second t <= 59 /\ 0 <= clk_minute t <= 59 /\
  0 <= clk_hour t <= 23 /\ 1 <= clk_day t <= 31 /\
  1 <= clk_month t <= 12 /\ 0 <= clk_weekday t <= 6.

(** [dayMatches]. *)
Definition dayMatches (s : SpecSchedule) (t : Clock) : bool :=
  let domMatch := Z.testbit (Dom s) (clk_day t) in
  let dowMatch := Z.testbit (Dow s) (clk_weekday t) in
  if Z.testbit (Dom s) 63 || Z.testbit (Dow s) 63
  then domMatch && dowMatch
  else domMatch || dowMatch.

(** The instants that [SpecSchedule.Next] stops at: the entry runs at [t]
    exactly when every field of [t] is in the schedule. *)
Definition fires (s : SpecSchedule) (t : Clock) : bool :=
  Z.testbit (Second s) (clk_second t)
  && Z.testbit (Minute s) (clk_minute t)
  && Z.testbit (Hour s) (clk_hour t)
  && Z.testbit (Month s) (clk_month t)
  && dayMatches s t.

(** What a scheduler entry runs. *)
Inductive Job : Type :=
| ScrapeJob (source : Source)
| ReportJob.

Definition Entry : Type := (SpecSchedule * Job)%type.

(** [scheduler.AddFunc(spec, cmd)]: a new entry, or an error and no
    entry when the expression does not parse. *)
Definition AddFunc (entries : list Entry) (spec : string) (cmd : Job)
  : list Entry * error :=
  match Parse_WithSeconds spec with
  | Some sched => ((entries ++ [(sched, cmd)])%list, None)
  | None => (entries, Some "failed to parse cron expression")
  end.

(** The expression of the report entry in [main]. *)
Definition report_spec : string := "59 23 * * * *".

(** The entries that [main] registers before [scheduler.Start()]: the
    loop over the sources (an error is logged and the loop goes on), then
    the report entry. *)
Definition register_entries (sources : list Source) : list Entry :=
  let scheduled :=
    fold_left (fun entries src => fst (AddFunc entries (Cron src) (ScrapeJob src)))
              sources [] in
  fst (AddFunc scheduled report_spec ReportJob).

Definition is_report (e : Entry) : bool :=
  match snd e with ReportJob => true | ScrapeJob _ => false end.

(** The registrations of [main] with the parser of the scheduler left
    open: [Parse spec] is the schedule that [scheduler.AddFunc] makes of
    [spec], or [None] when it returns an error. *)
Section Scheduling.

Variable Schedule : Type.
Variable Parse : string -> option Schedule.

Definition AddFunc_with (entries : list (Schedule * Job)) (spec : string) (cmd : Job)
  : list (Schedule * Job) * error :=
  match Parse spec with
  | Some sched => (entries ++ [(sched, cmd)], None)
  | None => (entries, Some "failed to parse cron expression")
  end.

Definition register_entries_with (sources : list Source) : list (Schedule * Job) :=
  let scheduled :=
    fold_left
      (fun entries src => fst (AddFunc_with entries (Cron src) (ScrapeJob src)))
      sources [] in
  fst (AddFunc_with scheduled report_spec ReportJob).

End Scheduling.

(** ** The configuration file (its source file is the one that declares
    [Config])

    Each struct is a record in a module of its name, so that the fields
    keep their names.  A Go [map[string]T] is a finite map; the order in
    which [range] visits it is left open by Go, the model visits it in
    the order of [map_to_list] and no property depends on that order. *)

Module GlobalConfig.
Record t : Type := mk {
  DefaultTimeout : string;
  DefaultMaxRetries : Z;
  UserAgent : string
}.
End GlobalConfig.

Module SourceConfig.
Record t : Type := mk {
  ID : string;
  Name : string;
  URL : string;
  Description : string;
  Cron : string;
  JSRendered : bool;
  MaxRetries : Z;
  Timeout : string;
  Category : string
}.
End SourceConfig.

Module EmailConfig.
Record t : Type := mk {
  Enabled : bool;
  SMTPServer : string;
  SMTPPort : Z;
  Username : string;
  Password : string;
  Recipients : list string
}.
End EmailConfig.

Module WebhookConfig.
Record t : Type := mk {
  Enabled : bool;
  URL : string;
  Secret : string
}.
End WebhookConfig.

Module NotificationConfig.
Record t : Type := mk {
  Email : EmailConfig.t;
  Webhook : WebhookConfig.t
}.
End NotificationConfig.

Module StorageConfig.
Record t : Type := mk {
  DatabasePath : string;
  BackupEnabled : bool;
  BackupInterval : string;
  MaxRetentionDays : Z
}.
End StorageConfig.

Module ReportingConfig.
Record t : Type := mk {
  Enabled : bool;
  OutputDirectory : string;
  DailyReportTime : string;
  AutoGenerate : bool;
  IncludeSummaries : bool;
  IncludeErrors : bool
}.
End ReportingConfig.

Module Config.
Record t : Type := mk {
  Global : GlobalConfig.t;
  Sources : gmap string SourceConfig.t;
  TestSources : gmap string SourceConfig.t;
  Notifications : NotificationConfig.t;
  Storage : StorageConfig.t;
  Reporting : ReportingConfig.t
}.
End Config.

(** The values that a [range] over a Go map visits. *)
Definition range_values {V : Type} (m : gmap string V) : list V :=
  List.map snd (map_to_list m).

Section ConfigFile.

(** [time.ParseDuration]: the duration in nanoseconds, or [None] for its
    error (the returned duration is then zero). *)
Variable ParseDuration : string -> option Z.

(** [Config.convertToSource]. *)
Definition convertToSource (c : Config.t) (srcConfig : SourceConfig.t) : Source :=
  let timeout :=
    match ParseDuration (SourceConfig.Timeout srcConfig) with
    | Some d => d
    | None =>
        (* fallback to the global default, its error dropped *)
        match ParseDuration (GlobalConfig.DefaultTimeout (Config.Global c)) with
        | Some d => d
        | None => 0
        end
    end in
  let maxRetries :=
    if SourceConfig.MaxRetries srcConfig =? 0
    then GlobalConfig.DefaultMaxRetries (Config.Global c)
    else SourceConfig.MaxRetries srcConfig in
  {| ID := SourceConfig.ID srcConfig;
     Source_URL := SourceConfig.URL srcConfig;
     Cron := SourceConfig.Cron srcConfig;
     JSRendered := SourceConfig.JSRendered srcConfig;
     MaxRetries := maxRetries;
     Timeout := timeout |}.

(** [Config.GetSources]; [env] is [os.Getenv("LEGITRACK_ENV")]. *)
Definition GetSources (c : Config.t) (env : string) : list Source :=
  let sources := List.map (convertToSource c) (range_values (Config.Sources c)) in
  if String.eqb env "development"
  then sources ++ List.map (convertToSource c) (range_values (Config.TestSources c))
  else sources.

End ConfigFile.

(** [Config.GetDatabasePath]. *)
Definition GetDatabasePath (c : Config.t) : string :=
  if negb (String.eqb (StorageConfig.DatabasePath (Config.Storage c)) "")
  then StorageConfig.DatabasePath (Config.Storage c)
  else "./legitrack.db".

(** [Config.GetUserAgent]. *)
Definition GetUserAgent (c : Config.t) : string :=
  if negb (String.eqb (GlobalConfig.UserAgent (Config.Global c)) "")
  then GlobalConfig.UserAgent (Config.Global c)
  else "LegiTrack-Bot/1.0 (Legal Compliance Monitor)".

(** [Config.GetReportingOutputDir]. *)
Definition GetReportingOutputDir (c : Config.t) : string :=
  if negb (String.eqb (ReportingConfig.OutputDirectory (Config.Reporting c)) "")
  then ReportingConfig.OutputDirectory (Config.Reporting c)
  else "./reports".

(** ** [reporter.go] *)

(** [type ReportData struct]; [Date] is kept as the day number that
    [date.Format("2006-01-02")] names. *)
Record ReportData : Type := mkReportData {
  rd_Date : Z;
  rd_DailyStats : gmap string Z;
  rd_SourceStats : gmap string (gmap string Z);
  rd_Updates : list Update;
  rd_Sources : gmap string SourceConfig.t
}.

(** [type Reporter struct]; the [storage] field is a handle on the
    database and carries no data of its own. *)
Record Reporter : Type := mkReporter {
  rep_config : Config.t;
  rep_outputDir : string
}.

Section Report.

(** [Reporter.generateHTML]: the execution of the fixed template of the
    source by the library [html/template], which is not modelled. *)
Variable generateHTML : ReportData -> string * error.

(** The text that [date.Format("2006-01-02")] gives for a day number. *)
Variable date_text : Z -> string.

(** [filepath.Join]. *)
Variable Join : string -> string -> string.

(** The error of [os.WriteFile(path, content, 0644)]. *)
Variable WriteFile : string -> string -> error.

(** [Reporter.GenerateDailyReport]: the file written, if the call gets
    that far and the write succeeds, and the returned error.  The three
    queries are three statements without a transaction, and the worker
    may insert between them: [seen1], [seen2] and [seen3] are the table
    as the first, the second and the third statement find it. *)
Definition GenerateDailyReport
  (r : Reporter) (date : Time) (seen1 seen2 seen3 : Store)
  : option (string * string) * error :=
  match GetDailyStats seen1 date with
  | (_, Some err) => (None, Some (wrap "failed to get daily stats" err))
  | (dailyStats, None) =>
    match GetSourceStats seen2 date with
    | (_, Some err) => (None, Some (wrap "failed to get source stats" err))
    | (sourceStats, None) =>
      match GetUpdatesByDateRange seen3 date date with
      | (_, Some err) => (None, Some (wrap "failed to get updates" err))
      | (updates, None) =>
          let reportData :=
            {| rd_Date := format_date date;
               rd_DailyStats := dailyStats;
               rd_SourceStats := sourceStats;
               rd_Updates := updates;
               rd_Sources := Config.Sources (rep_config r) |} in
          match generateHTML reportData with
          | (_, Some err) => (None, Some (wrap "failed to generate HTML" err))
          | (htmlContent, None) =>
              let filename :=
                "report_" +:+ date_text (format_date date) +:+ ".html" in
              let filepath := Join (rep_outputDir r) filename in
              match WriteFile filepath htmlContent with
              | Some err => (None, Some (wrap "failed to write report file" err))
              | None => (Some (filepath, htmlContent), None)
              end
          end
      end
    end
  end.

End Report.

(** [NewReporter] (the creation of the output directory is not
    modelled). *)
Definition NewReporter (config : Config.t) (outputDir : string) : Reporter :=
  mkReporter config outputDir.

(** * Vocabulary of the properties and sample inputs *)

(** The table after any number of runs of the program on a database
    that starts empty: each run hands one queue to its worker. *)
Definition worker_runs (queues : list (list Update)) : Store :=
  fold_left (fun s queue => fst (worker s queue)) queues [].

(** The update [u] shows the row [r] as a point query selects it: the
    eight selected columns, a NULL read as the empty text, the stored
    seconds as an instant, and the zero value in the other fields. *)
Definition shows_row8 (r : Row) (u : Update) : Prop :=
  SourceID u = col_source_id r
  /\ URL u = col_url r
  /\ FetchedAt u = col_fetched_at r * 1000000000
  /\ Hash u = match col_hash r with Some h => h | None => "" end
  /\ StatusCode u = col_status_code r
  /\ Success u = col_success r
  /\ RetryCount u = col_retry_count r
  /\ ErrorDetail u = match col_error_detail r with Some e => e | None => "" end
  /\ Body u = [] /\ Title u = "" /\ Summary u = "" /\ ContentType u = "".

(** The same for the range query, which selects eleven columns. *)
Definition shows_row11 (r : Row) (u : Update) : Prop :=
  SourceID u = col_source_id r
  /\ URL u = col_url r
  /\ FetchedAt u = col_fetched_at r * 1000000000
  /\ Hash u = match col_hash r with Some h => h | None => "" end
  /\ StatusCode u = col_status_code r
  /\ Success u = col_success r
  /\ RetryCount u = col_retry_count r
  /\ ErrorDetail u = match col_error_detail r with Some e => e | None => "" end
  /\ Title u = match col_title r with Some t => t | None => "" end
  /\ Summary u = match col_summary r with Some t => t | None => "" end
  /\ ContentType u = match col_content_type r with Some t => t | None => "" end
  /\ Body u = [].

(** The source [src] is what the configuration says for the entry
    [srcConfig]: its own fields, the global retry budget when its own is
    zero, its own timeout when that reads as a duration, else the global
    one, else zero. *)
Definition says_source
  (ParseDuration : string -> option Z) (c : Config.t)
  (srcConfig : SourceConfig.t) (src : Source) : Prop :=
  ID src = SourceConfig.ID srcConfig
  /\ Source_URL src = SourceConfig.URL srcConfig
  /\ Cron src = SourceConfig.Cron srcConfig
  /\ JSRendered src = SourceConfig.JSRendered srcConfig
  /\ MaxRetries src
     = (if SourceConfig.MaxRetries srcConfig =? 0
        then GlobalConfig.DefaultMaxRetries (Config.Global c)
        else SourceConfig.MaxRetries srcConfig)
  /\ Timeout src
     = match ParseDuration (SourceConfig.Timeout srcConfig) with
       | Some d => d
       | None =>
           match ParseDuration (GlobalConfig.DefaultTimeout (Config.Global c)) with
           | Some d => d
           | None => 0
           end
       end.

(** Some row of the table carries the text [h] in its [hash] column. *)
Definition hash_stored (h : string) (s : Store) : Prop :=
  exists r, In r s /\ col_hash r = Some h.

(** The number of rows whose [hash] column is the text [h]. *)
Definition rows_with_hash (h : string) (s : Store) : nat :=
  List.length (List.filter (hash_is h) s).

(** A successful fetch of an empty body, recorded on 2024-01-01. *)
Definition digest_update : Update :=
  {| SourceID := "s1";
     URL := "https://example.org/";
     FetchedAt := 1704067200000000000;
     Hash := "e3b0c44298fc1c149afbf4c8996fb92427ae41e4649b934ca495991b7852b855";
     Body := [];
     StatusCode := 200;
     Success := true;
     RetryCount := 0;
     ErrorDetail := "";
     Title := ""; Summary := ""; ContentType := "" |}.

Definition digest_store : Store := [row_of_update [] digest_update].

(** An update whose hash is three characters long, and a table that
    holds a row with that hash. *)
Definition short_hash_update : Update :=
  {| SourceID := "s1";
     URL := "https://example.org/";
     FetchedAt := 1704067200000000000;
     Hash := "abc";
     Body := [];
     StatusCode := 200;
     Success := true;
     RetryCount := 0;
     ErrorDetail := "";
     Title := ""; Summary := ""; ContentType := "" |}.

Definition short_hash_store : Store := [row_of_update [] short_hash_update].

(** Two failed fetches of the same source, one hour apart. *)
Definition first_failure : Update :=
  {| SourceID := "s2";
     URL := "https://example.org/slow";
     FetchedAt := 1704067200000000000;
     Hash := "";
     Body := [];
     StatusCode := 0;
     Success := false;
     RetryCount := 0;
     ErrorDetail := "context deadline exceeded";
     Title := ""; Summary := ""; ContentType := "" |}.

Definition second_failure : Update :=
  {| SourceID := "s2";
     URL := "https://example.org/slow";
     FetchedAt := 1704070800000000000;
     Hash := "";
     Body := [];
     StatusCode := 0;
     Success := false;
     RetryCount := 0;
     ErrorDetail := "context deadline exceeded";
     Title := ""; Summary := ""; ContentType := "" |}.

(** The table already holds a record with the hash of [update], fetched
    no earlier than [update]. *)
Definition is_duplicate (s : Store) (update : Update) : Prop :=
  exists existing,
    GetUpdateByHash s (Hash update) = (Some existing, true, None)
    /\ FetchedAt update <= FetchedAt existing.

(** [u1] may stand before [u2] in a result that lists the most recent
    update first. *)
Definition most_recent_first (u1 u2 : Update) : Prop :=
  FetchedAt u2 <= FetchedAt u1.

(** A world in which the address [://bad] does not parse and every other
    request is answered with an empty page. *)
Definition sample_world : World :=
  {| NewRequestWithContext :=
       fun url =>
         if String.eqb url "://bad"
         then Some "parse ://bad: missing protocol scheme"
         else None;
     RoundTrip := fun _ => Response 200 [];
     Now := 1704067200000000000 |}.

Definition bad_url_source : Source :=
  {| ID := "s3"; Source_URL := "://bad"; Cron := "0 0 * * * *";
     JSRendered := false; MaxRetries := 3; Timeout := 30000000000 |}.

Definition rendered_source : Source :=
  {| ID := "supreme_court_india"; Source_URL := "https://main.sci.gov.in/";
     Cron := "0 0 */4 * * *";
     JSRendered := true; MaxRetries := 3; Timeout := 45000000000 |}.

(** Three updates of one day: one of source [a], two of source [b]. *)
Definition stats_store : Store :=
  [ {| col_id := 1; col_source_id := "a"; col_url := "https://a.example/";
       col_fetched_at := 1704067200; col_hash := Some "";
       col_status_code := 0; col_success := false; col_retry_count := 0;
       col_error_detail := Some "timeout"; col_body_size := Some 0;
       col_title := Some ""; col_summary := Some "";
       col_content_type := Some "" |};
    {| col_id := 2; col_source_id := "b"; col_url := "https://b.example/";
       col_fetched_at := 1704067260; col_hash := Some "b1";
       col_status_code := 200; col_success := true; col_retry_count := 0;
       col_error_detail := Some ""; col_body_size := Some 10;
       col_title := Some ""; col_summary := Some "";
       col_content_type := Some "" |};
    {| col_id := 3; col_source_id := "b"; col_url := "https://b.example/";
       col_fetched_at := 1704067320; col_hash := Some "b2";
       col_status_code := 200; col_success := true; col_retry_count := 0;
       col_error_detail := Some ""; col_body_size := Some 20;
       col_title := Some ""; col_summary := Some "";
       col_content_type := Some "" |} ].

Definition stats_date : Time := 1704067200000000000.

(** The schedule that the six-field parser makes of the report
    expression: second 59, minute 23, and a star in the four remaining
    fields. *)
Definition report_schedule : SpecSchedule :=
  {| Second := Z.shiftl 1 59;
     Minute := Z.shiftl 1 23;
     Hour := Z.lor (getBits 0 23 1) starBit;
     Dom := Z.lor (getBits 1 31 1) starBit;
     Month := Z.lor (getBits 1 12 1) starBit;
     Dow := Z.lor (getBits 0 6 1) starBit |}.

(** The instants of one calendar day, second by second. *)
Definition day_clocks (day month weekday : Z) : list Clock :=
  flat_map
    (fun h =>
       flat_map
         (fun m =>
            List.map
              (fun sec =>
                 mkClock (Z.of_nat sec) (Z.of_nat m) (Z.of_nat h)
                         day month weekday)
              (seq 0 60))
         (seq 0 60))
    (seq 0 24).

(** An update that the log lines of [SaveUpdate] and of the worker can
    print: without a hash it is a failure, with one the hash has the
    eight characters that [update.Hash[:8]] takes. *)
Definition loggable (u : Update) : Prop :=
  (Hash u = "" /\ Success u = false) \/ (8 <= String.length (Hash u))%nat.

(** What the point queries hand back for a row that [SaveUpdate] wrote
    from [u]: the fetch time cut to the second, no body, and none of the
    three columns that these queries do not select. *)
Definition persisted8 (u : Update) : Update :=
  {| SourceID := SourceID u;
     URL := URL u;
     FetchedAt := FetchedAt u / nanos_per_second * nanos_per_second;
     Hash := Hash u;
     Body := [];
     StatusCode := StatusCode u;
     Success := Success u;
     RetryCount := RetryCount u;
     ErrorDetail := ErrorDetail u;
     Title := ""; Summary := ""; ContentType := "" |}.

(** The same for the range query, which selects all text columns. *)
Definition persisted11 (u : Update) : Update :=
  {| SourceID := SourceID u;
     URL := URL u;
     FetchedAt := FetchedAt u / nanos_per_second * nanos_per_second;
     Hash := Hash u;
     Body := [];
     StatusCode := StatusCode u;
     Success := Success u;
     RetryCount := RetryCount u;
     ErrorDetail := ErrorDetail u;
     Title := Title u; Summary := Summary u; ContentType := ContentType u |}.

(** The sum, over the sources of a result of [GetSourceStats], of the
    number stored under [key]. *)
Definition sum_over_sources (key : string) (stats : gmap string (gmap string Z)) : Z :=
  map_fold (fun _ entry acc => acc + default 0 (entry !! key)) 0 stats.

(** The expression of the source is accepted by the scheduler. *)
Definition schedulable (src : Source) : bool :=
  match Parse_WithSeconds (Cron src) with Some _ => true | None => false end.

(** A stand-in for the digest function in sample runs: sixty-four
    characters whatever the body. *)
Definition sample_digest (body : list Byte.byte) : string :=
  "e3b0c44298fc1c149afbf4c8996fb92427ae41e4649b934ca495991b7852b855".

Definition plain_source : Source :=
  {| ID := "law_ministry"; Source_URL := "https://lawmin.gov.in/";
     Cron := "0 0 */6 * * *";
     JSRendered := false; MaxRetries := 3; Timeout := 30000000000 |}.

(** A source with the five-field expression of the README. *)
Definition five_field_source : Source :=
  {| ID := "indian_gazette"; Source_URL := "https://egazette.gov.in/";
     Cron := "0 */2 * * *";
     JSRendered := false; MaxRetries := 5; Timeout := 60000000000 |}.

(** The sum of a weight over rows; the counts and the byte volume of the
    statistics are sums of this kind. *)
Definition weight_sum (w : Row -> Z) (rows : list Row) : Z :=
  fold_right (fun r acc => w r + acc) 0 rows.

(** The number of updates of a source in a list of updates. *)
Definition updates_of (sourceID : string) (updates : list Update) : list Update :=
  List.filter (fun u => String.eqb (SourceID u) sourceID) updates.

(** A configuration with one source, one test source and the defaults of
    the sample file. *)
Definition sample_source_config : SourceConfig.t :=
  SourceConfig.mk "law_ministry" "Ministry of Law and Justice"
    "https://lawmin.gov.in/" "Legal policy updates" "0 0 */6 * * *"
    false 0 "30s" "government_official".

Definition sample_test_source_config : SourceConfig.t :=
  SourceConfig.mk "httpbin_test" "HTTPBin Test"
    "https://httpbin.org/html" "Test source for development"
    "*/30 * * * * *" false 2 "soon" "test".

Definition sample_config : Config.t :=
  Config.mk
    (GlobalConfig.mk "30s" 3 "")
    {[ "law_ministry" := sample_source_config ]}
    {[ "httpbin_test" := sample_test_source_config ]}
    (NotificationConfig.mk
       (EmailConfig.mk false "" 587 "" "" [])
       (WebhookConfig.mk false "" ""))
    (StorageConfig.mk "" true "24h" 90)
    (ReportingConfig.mk true "" "23:59" true true true).

(** A duration parser for sample runs that knows the one text ["30s"]. *)
Definition sample_ParseDuration (text : string) : option Z :=
  if String.eqb text "30s" then Some 30000000000 else None.

(** A renderer, a date printer, a path join and a file system for sample
    runs of the reporter. *)
Definition sample_generateHTML (data : ReportData) : string * error :=
  ("<html></html>", None).

Definition sample_date_text (day : Z) : string := "2024-01-01".

Definition sample_Join (dir name : string) : string := dir +:+ "/" +:+ name.

Definition sample_WriteFile (path content : string) : error := None.

(** The update that the plain scraper sends for [plain_source] in
    [sample_world] with [sample_digest], and a table that holds its
    row. *)
Definition scraped_update : Update :=
  {| SourceID := "law_ministry";
     URL := "https://lawmin.gov.in/";
     FetchedAt := 1704067200000000000;
     Hash := "e3b0c44298fc1c149afbf4c8996fb92427ae41e4649b934ca495991b7852b855";
     Body := [];
     StatusCode := 200;
     Success := true;
     RetryCount := 0;
     ErrorDetail := "";
     Title := ""; Summary := ""; ContentType := "" |}.

Definition scraped_store : Store := [row_of_update [] scraped_update].

(** * Properties *)

(** ** Lookups by hash *)

Lemma hash_is_true h r : hash_is h r = true <-> col_hash r = Some h.
Proof.
  unfold hash_is. destruct (col_hash r) as [x|].
  - rewrite String.eqb_eq. split; congruence.
  - split; discriminate.
Qed.

Lemma hash_stored_existsb h s : hash_stored h s <-> existsb (hash_is h) s = true.
Proof.
  rewrite existsb_exists. unfold hash_stored.
  split; intros (r & Hin & Hr); exists r; split; trivial; now apply hash_is_true.
Qed.

Lemma rows_with_hash_zero h s :
  rows_with_hash h s = 0%nat <-> existsb (hash_is h) s = false.
Proof.
  unfold rows_with_hash. induction s as [|r s IH]; simpl.
  - tauto.
  - destruct (hash_is h r); simpl.
    + split; discriminate.
    + exact IH.
Qed.

Lemma rows_with_hash_app h s1 s2 :
  rows_with_hash h (s1 ++ s2) = (rows_with_hash h s1 + rows_with_hash h s2)%nat.
Proof. unfold rows_with_hash. now rewrite List.filter_app, List.length_app. Qed.

Lemma GetUpdateByHash_empty s : GetUpdateByHash s "" = (None, false, None).
Proof. reflexivity. Qed.

Lemma GetUpdateByHash_found s h :
  h <> "" -> hash_stored h s ->
  exists r, In r s /\ col_hash r = Some h
            /\ GetUpdateByHash s h = (Some (scan8 r), true, None).
Proof.
  intros Hne Hst. unfold GetUpdateByHash.
  apply String.eqb_neq in Hne. rewrite Hne.
  destruct (List.find (hash_is h) s) as [r|] eqn:Hf.
  - apply List.find_some in Hf. destruct Hf as [Hin Hr].
    exists r. rewrite hash_is_true in Hr. auto.
  - destruct Hst as (r & Hin & Hr).
    apply (List.find_none _ _ Hf) in Hin.
    apply hash_is_true in Hr. congruence.
Qed.

Lemma GetUpdateByHash_missing s h :
  ~ hash_stored h s -> GetUpdateByHash s h = (None, false, None).
Proof.
  intros Hst. unfold GetUpdateByHash.
  destruct (String.eqb h ""); trivial.
  destruct (List.find (hash_is h) s) as [r|] eqn:Hf; trivial.
  apply List.find_some in Hf. destruct Hf as [Hin Hr].
  exfalso. apply Hst. exists r. rewrite hash_is_true in Hr. auto.
Qed.

(** [GetUpdateByHash] never returns an error in the model, and it reports
    a record exactly when it hands one out. *)
Lemma GetUpdateByHash_shape s h :
  (exists r, In r s /\ col_hash r = Some h /\ h <> ""
             /\ GetUpdateByHash s h = (Some (scan8 r), true, None))
  \/ GetUpdateByHash s h = (None, false, None).
Proof.
  destruct (String.eqb h "") eqn:He.
  - right. unfold GetUpdateByHash. now rewrite He.
  - apply String.eqb_neq in He.
    destruct (existsb (hash_is h) s) eqn:Hex.
    + left. apply hash_stored_existsb in Hex.
      destruct (GetUpdateByHash_found s h He Hex) as (r & ? & ? & ?).
      exists r. auto.
    + right. apply GetUpdateByHash_missing.
      rewrite hash_stored_existsb. congruence.
Qed.

(** ** The INSERT of [SaveUpdate] *)

Lemma exec_insert_cases s r :
  (unique_conflict s (col_hash r) = true
   /\ exec_insert s r = (s, Some "UNIQUE constraint failed: updates.hash"))
  \/ (unique_conflict s (col_hash r) = false
      /\ exec_insert s r = ((s ++ [r])%list, None)).
Proof.
  unfold exec_insert. destruct (unique_conflict s (col_hash r)); auto.
Qed.

(** An INSERT leaves at most one row per hash text when there was at most
    one before. *)
Lemma exec_insert_keeps_unique h s r :
  (rows_with_hash h s <= 1)%nat ->
  (rows_with_hash h (fst (exec_insert s r)) <= 1)%nat.
Proof.
  intros Hle. destruct (exec_insert_cases s r) as [[_ ->]|[Hc ->]]; simpl; trivial.
  rewrite rows_with_hash_app. unfold rows_with_hash at 2. simpl.
  destruct (hash_is h r) eqn:Hr; simpl; [|lia].
  apply hash_is_true in Hr. rewrite Hr in Hc. simpl in Hc.
  apply rows_with_hash_zero in Hc. lia.
Qed.

(** [SaveUpdate] changes the table by at most the one INSERT. *)
Lemma SaveUpdate_store s u s' e :
  SaveUpdate s u = Returns (s', e) ->
  s' = s \/ s' = fst (exec_insert s (row_of_update s u)).
Proof.
  unfold SaveUpdate.
  destruct (exec_insert s (row_of_update s u)) as [s1 [e1|]] eqn:Hins; simpl;
    destruct (negb (String.eqb (Hash u) ""));
    try destruct (GetUpdateByHash s (Hash u)) as [[o [|]] [e2|]];
    try destruct (slice_to 8 (Hash u));
    intros H; inversion H; subst; auto.
Qed.

Lemma SaveUpdate_keeps_unique h s u s' e :
  SaveUpdate s u = Returns (s', e) ->
  (rows_with_hash h s <= 1)%nat -> (rows_with_hash h s' <= 1)%nat.
Proof.
  intros Hs Hle. destruct (SaveUpdate_store _ _ _ _ Hs) as [->| ->]; trivial.
  now apply exec_insert_keeps_unique.
Qed.

Lemma save_and_log_keeps_unique h s u :
  (rows_with_hash h s <= 1)%nat ->
  (rows_with_hash h (fst (save_and_log s u)) <= 1)%nat.
Proof.
  intros Hle. unfold save_and_log.
  destruct (SaveUpdate s u) as [[s' e]|msg] eqn:Hs; simpl; trivial.
  pose proof (SaveUpdate_keeps_unique h _ _ _ _ Hs Hle) as Hle'.
  destruct e; simpl; trivial.
  destruct (Success u); simpl; trivial.
  destruct (slice_to 8 (Hash u)); simpl; trivial.
Qed.

Lemma worker_step_keeps_unique h s u :
  (rows_with_hash h s <= 1)%nat ->
  (rows_with_hash h (fst (worker_step s u)) <= 1)%nat.
Proof.
  intros Hle. unfold worker_step.
  pose proof (save_and_log_keeps_unique h s u Hle) as Hsave.
  destruct (negb (String.eqb (Hash u) "")); trivial.
  destruct (GetUpdateByHash s (Hash u)) as [[o ex] err].
  destruct ex; trivial.
  destruct o as [existing|]; simpl; trivial.
  destruct (negb (Before (FetchedAt existing) (FetchedAt u))); simpl; trivial.
Qed.

(** The uniqueness of every hash text is an invariant of the worker. *)
Lemma worker_keeps_unique h updates : forall s,
  (rows_with_hash h s <= 1)%nat ->
  (rows_with_hash h (fst (worker s updates)) <= 1)%nat.
Proof.
  induction updates as [|u rest IH]; intros s Hle; simpl; trivial.
  pose proof (worker_step_keeps_unique h s u Hle) as Hstep.
  destruct (worker_step s u) as [s' [hd|msg]]; simpl in *; auto.
Qed.

(** ** Saving an update whose hash is already stored *)

Lemma slice_to_ok n s :
  (n <= String.length s)%nat -> slice_to n s = Returns (substring 0 n s).
Proof.
  intros Hle. unfold slice_to.
  destruct (n <=? String.length s)%nat eqn:E; trivial.
  apply Nat.leb_gt in E. lia.
Qed.

Lemma length_nonempty (s : string) : (1 <= String.length s)%nat -> s <> "".
Proof. destruct s; simpl; [lia | discriminate]. Qed.

Lemma SaveUpdate_known_hash s u :
  (8 <= String.length (Hash u))%nat ->
  hash_stored (Hash u) s ->
  SaveUpdate s u = Returns (s, None).
Proof.
  intros Hlen Hst.
  assert (Hne : Hash u <> "") by (apply length_nonempty; lia).
  destruct (GetUpdateByHash_found s (Hash u) Hne Hst) as (r & _ & _ & Hget).
  unfold SaveUpdate. rewrite Hget.
  apply String.eqb_neq in Hne. rewrite Hne. simpl.
  now rewrite (slice_to_ok 8 (Hash u) Hlen).
Qed.

(** A hash shorter than eight characters, which no scraper produces,
    would make the duplicate branch of [SaveUpdate] panic in its log
    line, where it evaluates [update.Hash[:8]]. *)
Lemma SaveUpdate_short_hash_panics :
  Hash short_hash_update <> ""
  /\ hash_stored (Hash short_hash_update) short_hash_store
  /\ SaveUpdate short_hash_store short_hash_update
     = Panics "slice bounds out of range"
  /\ SaveUpdate short_hash_store short_hash_update
     <> Returns (short_hash_store, None).
Proof.
  split; [discriminate|]. split.
  - exists (row_of_update [] short_hash_update). split; [left|]; reflexivity.
  - split; [reflexivity | discriminate].
Qed.

(** ** Saving an update without a hash *)

(** With an empty hash [SaveUpdate] goes straight to the INSERT, which
    binds the empty text. *)
Lemma SaveUpdate_hashless s u :
  Hash u = "" ->
  SaveUpdate s u =
    match exec_insert s (row_of_update s u) with
    | (s', Some e) => Returns (s', Some (wrap "failed to save update" e))
    | (s', None) => Returns (s', None)
    end.
Proof. intros Hu. unfold SaveUpdate. now rewrite Hu. Qed.

(** The first row with the empty text in [hash] is inserted. *)
Lemma SaveUpdate_hashless_first s u :
  Hash u = "" -> ~ hash_stored "" s ->
  SaveUpdate s u = Returns (s ++ [row_of_update s u], None).
Proof.
  intros Hu Hno. rewrite (SaveUpdate_hashless s u Hu).
  unfold exec_insert. simpl. rewrite Hu.
  destruct (existsb (hash_is "") s) eqn:E; trivial.
  apply hash_stored_existsb in E. contradiction.
Qed.

(** Every later one violates the UNIQUE constraint, whatever its source. *)
Lemma SaveUpdate_hashless_again s u :
  Hash u = "" -> hash_stored "" s ->
  SaveUpdate s u =
    Returns (s, Some "failed to save update: UNIQUE constraint failed: updates.hash").
Proof.
  intros Hu Hst. rewrite (SaveUpdate_hashless s u Hu).
  unfold exec_insert. simpl. rewrite Hu.
  apply hash_stored_existsb in Hst. now rewrite Hst.
Qed.

(** C2.  The claim asks that every update with an empty hash be inserted
    as a new row.  On the code the first one is; the second failure of
    the same source is refused by the UNIQUE constraint on [hash] and the
    table keeps one row. *)
Theorem second_hashless_save_rejected :
  SaveUpdate [] first_failure
  = Returns ([row_of_update [] first_failure], None)
  /\ SaveUpdate [row_of_update [] first_failure] second_failure
     = Returns ([row_of_update [] first_failure],
                Some "failed to save update: UNIQUE constraint failed: updates.hash")
  /\ fst (worker [] [first_failure; second_failure])
     = [row_of_update [] first_failure].
Proof. repeat split; reflexivity. Qed.

(** ** The decision of the worker *)

Lemma save_and_log_not_skipped s u : snd (save_and_log s u) <> Returns Skipped.
Proof.
  unfold save_and_log.
  destruct (SaveUpdate s u) as [[s' [e|]]|msg]; simpl; try discriminate.
  destruct (Success u); simpl; try discriminate.
  destruct (slice_to 8 (Hash u)); simpl; discriminate.
Qed.

Lemma worker_step_duplicate s u :
  Hash u <> "" -> is_duplicate s u -> worker_step s u = (s, Returns Skipped).
Proof.
  intros Hne (existing & Hget & Hle). unfold worker_step.
  apply String.eqb_neq in Hne. rewrite Hne, Hget. simpl.
  unfold Before. destruct (FetchedAt existing <? FetchedAt u) eqn:E; trivial.
  apply Z.ltb_lt in E. lia.
Qed.

Lemma worker_step_fresh s u :
  ~ is_duplicate s u -> worker_step s u = save_and_log s u.
Proof.
  intros Hnd. unfold worker_step.
  destruct (negb (String.eqb (Hash u) "")); trivial.
  destruct (GetUpdateByHash_shape s (Hash u)) as [(r & _ & _ & _ & Hget)| Hget];
    rewrite Hget; trivial.
  unfold Before. destruct (FetchedAt (scan8 r) <? FetchedAt u) eqn:E; trivial.
  exfalso. apply Hnd. exists (scan8 r). split; trivial.
  apply Z.ltb_ge in E. exact E.
Qed.

Lemma save_and_log_cases (s : Store) (update : Update) :
  match SaveUpdate s update with
  | Returns (s', Some _) => save_and_log s update = (s', Returns SaveFailed)
  | Returns (s', None) =>
      fst (save_and_log s update) = s'
      /\ (Success update = false \/ (8 <= String.length (Hash update))%nat ->
          snd (save_and_log s update) = Returns Processed)
  | Panics msg => save_and_log s update = (s, Panics msg)
  end.
Proof.
  unfold save_and_log.
  destruct (SaveUpdate s update) as [[s' [e|]]|msg]; trivial.
  destruct (Success update) eqn:Hs.
  - destruct (slice_to 8 (Hash update)) eqn:Hsl; simpl; split; trivial.
    intros [Hf|Hlen]; [discriminate|].
    rewrite (slice_to_ok 8 (Hash update) Hlen) in Hsl. discriminate.
  - simpl. auto.
Qed.

(** C4.  For an update with a non-empty hash the worker looks the hash up
    in the table with [GetUpdateByHash]; it skips the update, leaving
    the table alone, exactly when a record is found whose fetch time is
    not earlier than that of the update.  In every other case it calls
    [SaveUpdate]: the table after the step is the table that
    [SaveUpdate] leaves, an error of [SaveUpdate] ends the step as a
    failed save and nil as a processed update; when no row had the
    hash, the row of the update has been appended. *)
Theorem worker_step_skips_exactly_duplicates (s : Store) (update : Update) :
  Hash update <> "" ->
  (snd (worker_step s update) = Returns Skipped <-> is_duplicate s update)
  /\ (is_duplicate s update -> worker_step s update = (s, Returns Skipped))
  /\ (~ is_duplicate s update ->
      match SaveUpdate s update with
      | Returns (s', Some _) => worker_step s update = (s', Returns SaveFailed)
      | Returns (s', None) =>
          fst (worker_step s update) = s'
          /\ (Success update = false \/ (8 <= String.length (Hash update))%nat ->
              snd (worker_step s update) = Returns Processed)
      | Panics msg => worker_step s update = (s, Panics msg)
      end)
  /\ (~ hash_stored (Hash update) s ->
      ~ is_duplicate s update
      /\ exists r,
           fst (worker_step s update) = s ++ [r]
           /\ col_hash r = Some (Hash update)
           /\ col_source_id r = SourceID update
           /\ col_url r = URL update
           /\ col_fetched_at r = FetchedAt update / 1000000000
           /\ col_success r = Success update).
Proof.
  intros Hne. split; [|split; [|split]].
  - split.
    + intros Hskip.
      destruct (GetUpdateByHash_shape s (Hash update))
        as [(r & _ & _ & _ & Hget)| Hget].
      * destruct (Z.le_gt_cases (FetchedAt update) (FetchedAt (scan8 r))) as [Hle|Hgt].
        -- exists (scan8 r). auto.
        -- exfalso. apply (save_and_log_not_skipped s update).
           rewrite <- Hskip. f_equal. symmetry. apply worker_step_fresh.
           intros (e & Hget' & Hle). rewrite Hget in Hget'.
           inversion Hget'; subst. lia.
      * exfalso. apply (save_and_log_not_skipped s update).
        rewrite <- Hskip. f_equal. symmetry. apply worker_step_fresh.
        intros (e & Hget' & _). rewrite Hget in Hget'. discriminate.
    + intros Hd. now rewrite (worker_step_duplicate s update Hne Hd).
  - now apply worker_step_duplicate.
  - intros Hnd. rewrite (worker_step_fresh s update Hnd).
    apply save_and_log_cases.
  - intros Hno.
    assert (Hnd : ~ is_duplicate s update).
    { intros (e & Hget & _).
      rewrite (GetUpdateByHash_missing s (Hash update) Hno) in Hget.
      discriminate. }
    split; [exact Hnd|].
    exists (row_of_update s update).
    rewrite (worker_step_fresh s update Hnd).
    pose proof (save_and_log_cases s update) as Hc.
    unfold SaveUpdate in Hc.
    rewrite (GetUpdateByHash_missing s (Hash update) Hno) in Hc.
    unfold exec_insert in Hc. simpl in Hc.
    assert (E : existsb (hash_is (Hash update)) s = false).
    { destruct (existsb (hash_is (Hash update)) s) eqn:E; trivial.
      apply hash_stored_existsb in E. contradiction. }
    rewrite E in Hc.
    destruct (negb (String.eqb (Hash update) "")); destruct Hc as [Hc _];
      rewrite Hc; repeat split; reflexivity.
Qed.

Lemma worker_step_skips_exactly_duplicates_witness :
  worker_step digest_store digest_update = (digest_store, Returns Skipped)
  /\ (exists r,
        fst (worker_step [] digest_update) = [] ++ [r]
        /\ col_hash r = Some (Hash digest_update)
        /\ col_source_id r = SourceID digest_update
        /\ col_url r = URL digest_update
        /\ col_fetched_at r = FetchedAt digest_update / 1000000000
        /\ col_success r = Success digest_update).
Proof.
  split.
  - apply (worker_step_skips_exactly_duplicates digest_store digest_update).
    + discriminate.
    + exists (scan8 (row_of_update [] digest_update)). split.
      * reflexivity.
      * vm_compute. intros H. discriminate H.
  - apply (worker_step_skips_exactly_duplicates [] digest_update).
    + discriminate.
    + intros (r & [] & _).
Defined.

(** ** Ordered queries *)

Lemma order_by_fetched_at_desc_perm rows :
  Permutation (order_by_fetched_at_desc rows) rows.
Proof. apply merge_sort_Permutation. Qed.

Lemma order_by_fetched_at_desc_sorted rows :
  StronglySorted newer_first (order_by_fetched_at_desc rows).
Proof. apply StronglySorted_merge_sort; apply _. Qed.

Lemma order_by_fetched_at_desc_In rows r :
  In r (order_by_fetched_at_desc rows) <-> In r rows.
Proof.
  split; apply Permutation_in;
    [|symmetry]; apply order_by_fetched_at_desc_perm.
Qed.

(** The first row of an ordered result is at least as recent as every
    row of the result. *)
Lemma order_by_fetched_at_desc_head rows r rest :
  order_by_fetched_at_desc rows = r :: rest ->
  In r rows /\ forall r', In r' rows -> col_fetched_at r' <= col_fetched_at r.
Proof.
  intros Heq. split.
  - apply order_by_fetched_at_desc_In. rewrite Heq. now left.
  - intros r' Hin. apply order_by_fetched_at_desc_In in Hin.
    pose proof (order_by_fetched_at_desc_sorted rows) as Hs.
    rewrite Heq in Hin, Hs. inversion Hs as [|? ? _ Hall]; subst.
    destruct Hin as [<-|Hin]; [lia|].
    rewrite List.Forall_forall in Hall. exact (Hall r' Hin).
Qed.

Lemma order_by_fetched_at_desc_nil rows :
  order_by_fetched_at_desc rows = [] -> rows = [].
Proof.
  intros Heq. apply Permutation_nil.
  rewrite <- Heq. apply order_by_fetched_at_desc_perm.
Qed.

Lemma successful_of_true sourceID r :
  successful_of sourceID r = true
  <-> col_source_id r = sourceID /\ col_success r = true.
Proof.
  unfold successful_of. rewrite andb_true_iff, String.eqb_eq. tauto.
Qed.

Lemma parse_rfc3339_mono a b : a <= b -> parse_rfc3339 a <= parse_rfc3339 b.
Proof. unfold parse_rfc3339, nanos_per_second. lia. Qed.

Lemma scan8_shows (r : Row) : shows_row8 r (scan8 r).
Proof.
  unfold shows_row8, scan8, coalesce. simpl.
  destruct (col_hash r), (col_error_detail r); repeat split; reflexivity.
Qed.

(** C3.  [GetLatestUpdateBySource] returns a stored row of the source
    with [success] set, column by column (the stored fetch time
    included), and that row is at least as recent, by its stored fetch
    time, as every row of the source with [success] set; it returns
    [(nil, nil)] when the source has no successful row.  A row with
    [success = false] is never returned. *)
Theorem GetLatestUpdateBySource_latest_successful
  (s : Store) (sourceID : string) :
  match GetLatestUpdateBySource s sourceID with
  | (Some update, err) =>
      err = None
      /\ Success update = true
      /\ SourceID update = sourceID
      /\ exists r,
           In r s
           /\ col_source_id r = sourceID
           /\ col_success r = true
           /\ shows_row8 r update
           /\ forall r',
                In r' s -> col_source_id r' = sourceID ->
                col_success r' = true ->
                col_fetched_at r' <= col_fetched_at r
                /\ col_fetched_at r' * 1000000000 <= FetchedAt update
  | (None, err) =>
      err = None
      /\ forall r,
           In r s -> col_source_id r = sourceID -> col_success r = false
  end.
Proof.
  unfold GetLatestUpdateBySource.
  destruct (order_by_fetched_at_desc (List.filter (successful_of sourceID) s))
    as [|r rest] eqn:Heq.
  - split; trivial. intros r Hin Hsrc.
    apply order_by_fetched_at_desc_nil in Heq.
    destruct (col_success r) eqn:Hsucc; trivial.
    assert (Hf : In r (List.filter (successful_of sourceID) s)).
    { apply List.filter_In. split; trivial. now apply successful_of_true. }
    rewrite Heq in Hf. destruct Hf.
  - apply order_by_fetched_at_desc_head in Heq. destruct Heq as [Hin Hmax].
    apply List.filter_In in Hin. destruct Hin as [Hin Hok].
    apply successful_of_true in Hok. destruct Hok as [Hsrc Hsucc].
    split; [reflexivity|]. split; [exact Hsucc|]. split; [exact Hsrc|].
    exists r. split; [exact Hin|]. split; [exact Hsrc|]. split; [exact Hsucc|].
    split; [apply scan8_shows|].
    intros r' Hin' Hsrc' Hsucc'.
    assert (Hle : col_fetched_at r' <= col_fetched_at r).
    { apply Hmax. apply List.filter_In. split; trivial.
      now apply successful_of_true. }
    split; [exact Hle|]. simpl. unfold parse_rfc3339, nanos_per_second. lia.
Qed.

Lemma scan11_sorted rows :
  StronglySorted newer_first rows ->
  StronglySorted most_recent_first (List.map scan11 rows).
Proof.
  induction 1 as [|r rows Hs IH Hall]; simpl; constructor; trivial.
  rewrite List.Forall_forall in *. intros u Hu.
  apply List.in_map_iff in Hu. destruct Hu as (r' & <- & Hin).
  unfold most_recent_first. simpl. apply parse_rfc3339_mono.
  exact (Hall r' Hin).
Qed.

Lemma in_date_range_true startDate endDate r :
  in_date_range startDate endDate r = true
  <-> format_date startDate <= sql_date (col_fetched_at r) <= format_date endDate.
Proof.
  unfold in_date_range. rewrite andb_true_iff, !Z.leb_le. tauto.
Qed.

(** A range of one day selects the rows of that day. *)
Lemma in_date_range_single date r : in_date_range date date r = on_date date r.
Proof.
  unfold in_date_range, on_date.
  destruct (sql_date (col_fetched_at r) =? format_date date) eqn:E.
  - apply Z.eqb_eq in E. rewrite E, Z.leb_refl. reflexivity.
  - apply Z.eqb_neq in E. apply andb_false_iff.
    rewrite !Z.leb_gt. lia.
Qed.

Lemma filter_single_day date (s : Store) :
  List.filter (in_date_range date date) s = List.filter (on_date date) s.
Proof. apply List.filter_ext. apply in_date_range_single. Qed.

Lemma scan11_shows (r : Row) : shows_row11 r (scan11 r).
Proof.
  unfold shows_row11, scan11, coalesce. simpl.
  destruct (col_hash r), (col_error_detail r), (col_title r),
    (col_summary r), (col_content_type r); repeat split; reflexivity.
Qed.

Lemma scan11_shows_all (rows : list Row) :
  Forall2 shows_row11 rows (List.map scan11 rows).
Proof.
  induction rows as [|r rows IH]; simpl; constructor; trivial.
  apply scan11_shows.
Qed.

Lemma on_date_true (date : Time) (r : Row) :
  on_date date r = true <-> sql_date (col_fetched_at r) = format_date date.
Proof. unfold on_date. apply Z.eqb_eq. Qed.

(** C6.  [GetUpdatesByDateRange] returns, without error, the rows whose
    fetch day lies between the two days (both included), each once,
    failures as well as successes: the updates returned show, one by
    one and column by column, the selected rows taken in an order in
    which no row stands before a row with a later stored fetch time.
    For a single day [D] these are the rows of that day, as many as are
    stored. *)
Theorem GetUpdatesByDateRange_complete (s : Store) (startDate endDate D : Time) :
  snd (GetUpdatesByDateRange s startDate endDate) = None
  /\ (exists rows,
        Permutation rows (List.filter (in_date_range startDate endDate) s)
        /\ StronglySorted
             (fun r1 r2 => col_fetched_at r2 <= col_fetched_at r1) rows
        /\ Forall2 shows_row11 rows
             (fst (GetUpdatesByDateRange s startDate endDate)))
  /\ (forall r,
        In r (List.filter (in_date_range startDate endDate) s)
        <-> In r s /\ format_date startDate <= sql_date (col_fetched_at r)
                      <= format_date endDate)
  /\ StronglySorted most_recent_first
       (fst (GetUpdatesByDateRange s startDate endDate))
  /\ (exists rows,
        Permutation rows (List.filter (on_date D) s)
        /\ StronglySorted
             (fun r1 r2 => col_fetched_at r2 <= col_fetched_at r1) rows
        /\ Forall2 shows_row11 rows (fst (GetUpdatesByDateRange s D D)))
  /\ (forall r,
        In r (List.filter (on_date D) s)
        <-> In r s /\ sql_date (col_fetched_at r) = format_date D)
  /\ List.length (fst (GetUpdatesByDateRange s D D))
     = List.length (List.filter (on_date D) s).
Proof.
  unfold GetUpdatesByDateRange. cbn [fst snd].
  split; [reflexivity|]. split; [|split; [|split; [|split; [|split]]]].
  - exists (order_by_fetched_at_desc
              (List.filter (in_date_range startDate endDate) s)).
    split; [apply order_by_fetched_at_desc_perm|].
    split; [apply order_by_fetched_at_desc_sorted | apply scan11_shows_all].
  - intros r. rewrite List.filter_In, in_date_range_true. tauto.
  - apply scan11_sorted, order_by_fetched_at_desc_sorted.
  - rewrite filter_single_day.
    exists (order_by_fetched_at_desc (List.filter (on_date D) s)).
    split; [apply order_by_fetched_at_desc_perm|].
    split; [apply order_by_fetched_at_desc_sorted | apply scan11_shows_all].
  - intros r. rewrite List.filter_In, on_date_true. tauto.
  - rewrite filter_single_day, List.length_map.
    apply Permutation_length, order_by_fetched_at_desc_perm.
Qed.

(** ** Daily statistics *)

Lemma count_success_failure rows :
  sql_count_when is_success rows + sql_count_when is_failure rows
  = sql_count rows.
Proof.
  unfold sql_count_when, sql_count, is_success, is_failure.
  induction rows as [|r rows IH]; simpl; trivial.
  destruct (col_success r); simpl; lia.
Qed.

(** C7.  The ["total_updates"] entry of [GetDailyStats] for a date is the
    number of updates that [GetUpdatesByDateRange] returns for that date
    as both ends, and the ["successful_updates"] and ["failed_updates"]
    entries add up to it. *)
Theorem GetDailyStats_total_is_range_count (s : Store) (date : Time) :
  let stats := fst (GetDailyStats s date) in
  snd (GetDailyStats s date) = None
  /\ stats !! "total_updates"
     = Some (Z.of_nat (List.length (fst (GetUpdatesByDateRange s date date))))
  /\ exists total successful failed,
       stats !! "total_updates" = Some total
       /\ stats !! "successful_updates" = Some successful
       /\ stats !! "failed_updates" = Some failed
       /\ successful + failed = total.
Proof.
  unfold GetDailyStats, GetUpdatesByDateRange. cbn [fst snd].
  split; [reflexivity|]. split.
  - rewrite lookup_insert_ne by discriminate. rewrite lookup_insert_eq.
    unfold sql_count. do 2 f_equal.
    rewrite filter_single_day, List.length_map.
    symmetry. apply Permutation_length, order_by_fetched_at_desc_perm.
  - eexists _, _, _. split; [|split; [|split]].
    + rewrite lookup_insert_ne by discriminate. apply lookup_insert_eq.
    + rewrite !(lookup_insert_ne _ _ "successful_updates") by discriminate.
      apply lookup_insert_eq.
    + rewrite !(lookup_insert_ne _ _ "failed_updates") by discriminate.
      apply lookup_insert_eq.
    + apply count_success_failure.
Qed.

(** ** The scrapers *)

Section ScraperProperties.

Variable sha256_hex : list Byte.byte -> string.

(** Once the request could be built, the plain scraper sends exactly one
    update, whether the exchange succeeds or fails. *)
Lemma HTTPScraper_Scrape_sends_one (w : World) (ctx : Context) (src : Source) :
  NewRequestWithContext w (Source_URL src) = None ->
  List.length (fst (HTTPScraper_Scrape sha256_hex w ctx src)) = 1%nat.
Proof.
  intros Hreq. unfold HTTPScraper_Scrape. rewrite Hreq.
  destruct (client_Do w ctx (Source_URL src)); reflexivity.
Qed.

(** An update with [Success] set comes out of the plain scraper only,
    with the digest of the body as its hash. *)
Lemma HTTPScraper_Scrape_success
  (w : World) (ctx : Context) (src : Source) (u : Update) :
  In u (fst (HTTPScraper_Scrape sha256_hex w ctx src)) ->
  Success u = true ->
  Hash u = sha256_hex (Body u) /\ ErrorDetail u = "".
Proof.
  unfold HTTPScraper_Scrape.
  destruct (NewRequestWithContext w (Source_URL src)); simpl; [tauto|].
  destruct (client_Do w ctx (Source_URL src)); simpl;
    intros [<-|[]]; simpl; intros Hs; try discriminate; auto.
Qed.

Lemma ScraperManager_Scrape_plain (w : World) (ctx : Context) (src : Source) :
  JSRendered src = false ->
  ScraperManager_Scrape sha256_hex w ctx src
  = HTTPScraper_Scrape sha256_hex w ctx src.
Proof. intros Hjs. unfold ScraperManager_Scrape. now rewrite Hjs. Qed.

Lemma ScraperManager_Scrape_rendered (w : World) (ctx : Context) (src : Source) :
  JSRendered src = true ->
  ScraperManager_Scrape sha256_hex w ctx src = BrowserScraper_Scrape w ctx src.
Proof. intros Hjs. unfold ScraperManager_Scrape. now rewrite Hjs. Qed.

(** C5.  The claim asks for exactly one update on the channel per call,
    failures included.  On the code a call for a plain source whose
    request cannot be built (an address that does not parse) returns the
    error and sends nothing, unlike the two later failure paths. *)
Theorem Scrape_request_error_sends_nothing
  (w : World) (ctx : Context) (src : Source) (err : string) :
  JSRendered src = false ->
  NewRequestWithContext w (Source_URL src) = Some err ->
  ScraperManager_Scrape sha256_hex w ctx src
  = ([], Some (wrap "failed to create request" err))
  /\ List.length (fst (ScraperManager_Scrape sha256_hex w ctx src)) <> 1%nat.
Proof.
  intros Hjs Hreq. rewrite (ScraperManager_Scrape_plain w ctx src Hjs).
  unfold HTTPScraper_Scrape. rewrite Hreq. split; [reflexivity|discriminate].
Qed.

(** C10.  For a source with [JSRendered] set, [ScraperManager.Scrape] is
    [BrowserScraper.Scrape]: it sends exactly one update, with [Success]
    false, an empty hash and the fixed error detail, and returns a
    non-nil error; no update with [Success] set is ever sent for such a
    source. *)
Theorem rendered_source_never_succeeds
  (w : World) (ctx : Context) (src : Source) :
  JSRendered src = true ->
  ScraperManager_Scrape sha256_hex w ctx src = BrowserScraper_Scrape w ctx src
  /\ (exists update err,
        ScraperManager_Scrape sha256_hex w ctx src = ([update], Some err)
        /\ SourceID update = ID src
        /\ Success update = false
        /\ Hash update = ""
        /\ ErrorDetail update = "Browser scraping not implemented yet")
  /\ (forall update,
        In update (fst (ScraperManager_Scrape sha256_hex w ctx src)) ->
        Success update = false).
Proof.
  intros Hjs. rewrite (ScraperManager_Scrape_rendered w ctx src Hjs).
  split; [reflexivity|]. split.
  - eexists _, _. split; [reflexivity|]. simpl. tauto.
  - simpl. intros update [<-|[]]. reflexivity.
Qed.

End ScraperProperties.

Lemma Scrape_request_error_sends_nothing_witness :
  ScraperManager_Scrape (fun _ => "") sample_world Background bad_url_source
  = ([], Some (wrap "failed to create request"
                    "parse ://bad: missing protocol scheme"))
  /\ List.length
       (fst (ScraperManager_Scrape (fun _ => "") sample_world Background
                                   bad_url_source))
     <> 1%nat.
Proof.
  apply (Scrape_request_error_sends_nothing
           (fun _ => "") sample_world Background bad_url_source); reflexivity.
Defined.

Lemma rendered_source_never_succeeds_witness :
  ScraperManager_Scrape (fun _ => "") sample_world Canceled rendered_source
  = BrowserScraper_Scrape sample_world Canceled rendered_source
  /\ (exists update err,
        ScraperManager_Scrape (fun _ => "") sample_world Canceled
                              rendered_source
        = ([update], Some err)
        /\ SourceID update = ID rendered_source
        /\ Success update = false
        /\ Hash update = ""
        /\ ErrorDetail update = "Browser scraping not implemented yet")
  /\ (forall update,
        In update
           (fst (ScraperManager_Scrape (fun _ => "") sample_world Canceled
                                       rendered_source)) ->
        Success update = false).
Proof.
  apply (rendered_source_never_succeeds
           (fun _ => "") sample_world Canceled rendered_source); reflexivity.
Defined.

(** ** Statistics by source *)

(** Storing result rows in the Go map: a key that no later row carries
    keeps its entry. *)
Lemma collect_lookup_other (rows : list GroupRow) :
  forall (m : gmap string (gmap string Z)) (k : string),
    (forall g, In g rows -> g_source_id g <> k) ->
    fold_left (fun stats g => <[g_source_id g := stats_entry g]> stats) rows m
      !! k = m !! k.
Proof.
  induction rows as [|g0 rows IH]; intros m k Hk; simpl; trivial.
  rewrite IH by (intros g Hg; apply Hk; now right).
  apply lookup_insert_ne. apply Hk. now left.
Qed.

Lemma collect_lookup_row (rows : list GroupRow) :
  forall (m : gmap string (gmap string Z)) (g : GroupRow),
    List.NoDup (List.map g_source_id rows) -> In g rows ->
    fold_left (fun stats g => <[g_source_id g := stats_entry g]> stats) rows m
      !! g_source_id g = Some (stats_entry g).
Proof.
  induction rows as [|g0 rows IH]; intros m g Hnd Hin; simpl; [destruct Hin|].
  inversion Hnd as [|? ? Hnotin Hnd']; subst.
  destruct Hin as [->|Hin].
  - rewrite collect_lookup_other.
    + apply lookup_insert_eq.
    + intros g' Hg' Heq. apply Hnotin. rewrite <- Heq.
      now apply List.in_map.
  - now apply IH.
Qed.

(** The map that the loop builds is the same for every order in which
    the result rows arrive. *)
Lemma collect_stats_Permutation (rows rows' : list GroupRow) :
  List.NoDup (List.map g_source_id rows) ->
  Permutation rows rows' ->
  collect_stats rows = collect_stats rows'.
Proof.
  intros Hnd Hp.
  assert (Hnd' : List.NoDup (List.map g_source_id rows')).
  { eapply Permutation_NoDup; [|exact Hnd]. now apply Permutation_map. }
  apply map_eq. intros k. unfold collect_stats.
  destruct (List.in_dec string_dec k (List.map g_source_id rows)) as [Hin|Hout].
  - apply List.in_map_iff in Hin. destruct Hin as (g & <- & Hg).
    rewrite (collect_lookup_row rows ∅ g Hnd Hg).
    rewrite (collect_lookup_row rows' ∅ g Hnd'); trivial.
    now apply (Permutation_in _ Hp).
  - rewrite !collect_lookup_other; trivial.
    + intros g Hg Heq. apply Hout. rewrite <- Heq. apply List.in_map.
      apply (Permutation_in _ (Permutation_sym Hp)), Hg.
    + intros g Hg Heq. apply Hout. rewrite <- Heq. now apply List.in_map.
Qed.

Lemma group_by_source_keys (rows : list Row) :
  List.map g_source_id (group_by_source rows)
  = remove_dups (List.map col_source_id rows).
Proof.
  unfold group_by_source. rewrite List.map_map. simpl. apply List.map_id.
Qed.

Lemma source_stats_rows_perm (s : Store) (date : Time) :
  Permutation (source_stats_rows s date)
              (group_by_source (List.filter (on_date date) s)).
Proof. apply merge_sort_Permutation. Qed.

Lemma source_stats_rows_NoDup (s : Store) (date : Time) :
  List.NoDup (List.map g_source_id (source_stats_rows s date)).
Proof.
  eapply Permutation_NoDup.
  - apply Permutation_map. symmetry. apply source_stats_rows_perm.
  - rewrite group_by_source_keys. apply NoDup_ListNoDup, NoDup_remove_dups.
Qed.

(** The query delivers its rows with the larger totals first. *)
Lemma source_stats_rows_sorted (s : Store) (date : Time) :
  StronglySorted more_updates_first (source_stats_rows s date).
Proof. apply StronglySorted_merge_sort; apply _. Qed.

(** What [GetSourceStats] does return: under each source that has a row
    on the date, the counts and the byte volume of that source's rows of
    the date; nothing under any other source. *)
Lemma GetSourceStats_lookup (s : Store) (date : Time) (sid : string) :
  let grp :=
    List.filter (fun r => String.eqb (col_source_id r) sid)
                (List.filter (on_date date) s) in
  fst (GetSourceStats s date) !! sid =
    match grp with
    | [] => None
    | _ :: _ =>
        Some (<["total_updates" := sql_count grp]>
                (<["successful_updates" := sql_count_when is_success grp]>
                   (<["failed_updates" := sql_count_when is_failure grp]>
                      (<["total_size" :=
                           NullInt64_Int64 (sql_sum_body_size grp)]> ∅))))
    end.
Proof.
  cbv zeta. unfold GetSourceStats. cbn [fst].
  set (rows := List.filter (on_date date) s).
  remember (List.filter (fun r => String.eqb (col_source_id r) sid) rows)
    as grp eqn:Hgrp.
  assert (Hmem : forall r, In r grp <-> In r rows /\ col_source_id r = sid).
  { intros r. rewrite Hgrp, List.filter_In, String.eqb_eq. tauto. }
  destruct (List.in_dec string_dec sid (List.map col_source_id rows)) as [Hin|Hout].
  - set (g := {| g_source_id := sid;
                 g_total_updates := sql_count grp;
                 g_successful_updates := sql_count_when is_success grp;
                 g_failed_updates := sql_count_when is_failure grp;
                 g_total_size := sql_sum_body_size grp |}).
    assert (Hg : In g (source_stats_rows s date)).
    { apply (Permutation_in _ (Permutation_sym (source_stats_rows_perm s date))).
      unfold group_by_source. apply List.in_map_iff. exists sid. split.
      - unfold g. rewrite Hgrp. reflexivity.
      - apply list_elem_of_In, elem_of_remove_dups, list_elem_of_In, Hin. }
    pose proof (collect_lookup_row _ ∅ g (source_stats_rows_NoDup s date) Hg) as Hl.
    unfold collect_stats. simpl in Hl. rewrite Hl.
    destruct grp as [|r0 grp0]; [|reflexivity].
    exfalso. apply List.in_map_iff in Hin. destruct Hin as (r & Hr & Hrin).
    apply (Hmem r). auto.
  - unfold collect_stats. rewrite collect_lookup_other.
    + rewrite lookup_empty.
      destruct grp as [|r0 grp0]; [reflexivity|].
      exfalso. apply Hout. apply List.in_map_iff. exists r0.
      destruct (proj1 (Hmem r0) (or_introl eq_refl)) as [Hr0 He]. auto.
    + intros g Hg Heq. apply Hout.
      apply (Permutation_in _ (source_stats_rows_perm s date)) in Hg.
      apply (List.in_map g_source_id) in Hg.
      rewrite group_by_source_keys in Hg. rewrite Heq in Hg.
      rewrite <- list_elem_of_In, elem_of_remove_dups, list_elem_of_In in Hg.
      exact Hg.
Qed.

(** C8.  The query of [GetSourceStats] orders its rows by total
    descending, but the method returns them in a Go map, which has no
    order: the value returned is the one that any other order of the
    same rows gives, the ascending one included. *)
Theorem GetSourceStats_order_not_returned
  (s : Store) (date : Time) (rows' : list GroupRow) :
  Permutation (source_stats_rows s date) rows' ->
  fst (GetSourceStats s date) = collect_stats rows'.
Proof.
  intros Hp. unfold GetSourceStats. cbn [fst].
  apply collect_stats_Permutation; trivial.
  apply source_stats_rows_NoDup.
Qed.

Lemma GetSourceStats_order_not_returned_witness :
  List.map g_total_updates (source_stats_rows stats_store stats_date) = [2; 1]
  /\ List.map g_total_updates (rev (source_stats_rows stats_store stats_date))
     = [1; 2]
  /\ fst (GetSourceStats stats_store stats_date)
     = collect_stats (rev (source_stats_rows stats_store stats_date)).
Proof.
  split; [reflexivity|]. split; [reflexivity|].
  apply (GetSourceStats_order_not_returned stats_store stats_date).
  apply Permutation_rev.
Defined.

(** ** The report entry of the scheduler *)

(** A check that holds at every number of a range holds at each of them. *)
Lemma forallb_range (p : Z -> bool) (lo : Z) (n : nat) :
  forallb p (List.map (fun k => lo + Z.of_nat k) (seq 0 n)) = true ->
  forall v, lo <= v < lo + Z.of_nat n -> p v = true.
Proof.
  intros Hall v Hv. rewrite forallb_forall in Hall. apply Hall.
  apply List.in_map_iff. exists (Z.to_nat (v - lo)). split; [lia|].
  apply List.in_seq. lia.
Qed.

Lemma report_spec_parses : Parse_WithSeconds report_spec = Some report_schedule.
Proof. vm_compute. reflexivity. Qed.

Lemma report_schedule_fires (t : Clock) :
  valid_Clock t ->
  fires report_schedule t = (clk_minute t =? 23) && (clk_second t =? 59).
Proof.
  intros (Hs & Hm & Hh & Hd & Hmo & Hw).
  assert (Es : Z.testbit (Second report_schedule) (clk_second t)
               = (clk_second t =? 59)).
  { apply eqb_prop.
    apply (forallb_range
             (fun v => eqb (Z.testbit (Second report_schedule) v) (v =? 59))
             0 60); [vm_compute; reflexivity | lia]. }
  assert (Em : Z.testbit (Minute report_schedule) (clk_minute t)
               = (clk_minute t =? 23)).
  { apply eqb_prop.
    apply (forallb_range
             (fun v => eqb (Z.testbit (Minute report_schedule) v) (v =? 23))
             0 60); [vm_compute; reflexivity | lia]. }
  assert (Eh : Z.testbit (Hour report_schedule) (clk_hour t) = true).
  { apply (forallb_range (Z.testbit (Hour report_schedule)) 0 24);
      [vm_compute; reflexivity | lia]. }
  assert (Emo : Z.testbit (Month report_schedule) (clk_month t) = true).
  { apply (forallb_range (Z.testbit (Month report_schedule)) 1 12);
      [vm_compute; reflexivity | lia]. }
  assert (Ed : Z.testbit (Dom report_schedule) (clk_day t) = true).
  { apply (forallb_range (Z.testbit (Dom report_schedule)) 1 31);
      [vm_compute; reflexivity | lia]. }
  assert (Ew : Z.testbit (Dow report_schedule) (clk_weekday t) = true).
  { apply (forallb_range (Z.testbit (Dow report_schedule)) 0 7);
      [vm_compute; reflexivity | lia]. }
  assert (Estar : Z.testbit (Dom report_schedule) 63 = true)
    by (vm_compute; reflexivity).
  unfold fires, dayMatches. rewrite Es, Em, Eh, Emo, Ed, Ew, Estar. simpl.
  rewrite !andb_true_r. apply andb_comm.
Qed.

(** The loop over the sources adds scrape entries only. *)
Lemma scrape_entries_no_report (sources : list Source) :
  forall entries : list Entry,
    List.filter is_report
      (fold_left
         (fun entries src => fst (AddFunc entries (Cron src) (ScrapeJob src)))
         sources entries)
    = List.filter is_report entries.
Proof.
  induction sources as [|src sources IH]; intros entries; simpl; trivial.
  rewrite IH. unfold AddFunc.
  destruct (Parse_WithSeconds (Cron src)); simpl; trivial.
  rewrite List.filter_app. simpl. apply List.app_nil_r.
Qed.

Lemma register_entries_report (sources : list Source) :
  List.filter is_report (register_entries sources)
  = [(report_schedule, ReportJob)].
Proof.
  unfold register_entries, AddFunc. rewrite report_spec_parses. simpl.
  rewrite List.filter_app, scrape_entries_no_report. reflexivity.
Qed.

Lemma day_clocks_valid (day month weekday : Z) (t : Clock) :
  1 <= day <= 31 -> 1 <= month <= 12 -> 0 <= weekday <= 6 ->
  In t (day_clocks day month weekday) -> valid_Clock t.
Proof.
  intros Hd Hmo Hw Hin. unfold day_clocks in Hin.
  apply List.in_flat_map in Hin. destruct Hin as (h & Hh & Hin).
  apply List.in_flat_map in Hin. destruct Hin as (m & Hm & Hin).
  apply List.in_map_iff in Hin. destruct Hin as (sec & <- & Hsec).
  apply List.in_seq in Hh, Hm, Hsec. unfold valid_Clock. simpl. lia.
Qed.

(** C9.  Besides the entries of the sources, [main] registers exactly one
    report entry.  Its expression is read by the six-field parser, whose
    first field is the second: the entry runs at second 59 of minute 23
    of every hour, twenty-four times on each day, and not once a day at
    23:59. *)
Theorem report_entry_fires_every_hour
  (sources : list Source) (t : Clock) (day month weekday : Z) :
  valid_Clock t ->
  1 <= day <= 31 -> 1 <= month <= 12 -> 0 <= weekday <= 6 ->
  exists sched,
    List.filter is_report (register_entries sources) = [(sched, ReportJob)]
    /\ (fires sched t = true <-> clk_minute t = 23 /\ clk_second t = 59)
    /\ List.length (List.filter (fires sched) (day_clocks day month weekday))
       = 24%nat.
Proof.
  intros Ht Hd Hmo Hw. exists report_schedule.
  split; [apply register_entries_report|]. split.
  - rewrite (report_schedule_fires t Ht), andb_true_iff, !Z.eqb_eq. tauto.
  - rewrite (List.filter_ext_in
               (fires report_schedule)
               (fun c => (clk_minute c =? 23) && (clk_second c =? 59))).
    + vm_compute. reflexivity.
    + intros c Hc. apply report_schedule_fires.
      now apply (day_clocks_valid day month weekday).
Qed.

Lemma report_entry_fires_every_hour_witness :
  exists sched,
    List.filter is_report (register_entries [rendered_source; bad_url_source])
    = [(sched, ReportJob)]
    /\ (fires sched (mkClock 59 23 0 1 1 1) = true <-> 23 = 23 /\ 59 = 59)
    /\ List.length (List.filter (fires sched) (day_clocks 1 1 1)) = 24%nat.
Proof.
  apply (report_entry_fires_every_hour
           [rendered_source; bad_url_source] (mkClock 59 23 0 1 1 1) 1 1 1);
    unfold valid_Clock; simpl; lia.
Defined.

(** At 23:59:00, the time named by the comment in [main], the entry does
    not run; at 00:23:59 and at 01:23:59 of the same day it does. *)
Lemma report_entry_sample_instants :
  fires report_schedule (mkClock 0 59 23 1 1 1) = false
  /\ fires report_schedule (mkClock 59 23 0 1 1 1) = true
  /\ fires report_schedule (mkClock 59 23 1 1 1 1) = true.
Proof. repeat split; vm_compute; reflexivity. Qed.

(** ** Sample runs *)

(** The same page fetched twice: one row, and [latest] is that row. *)
Example same_body_twice :
  worker [] [digest_update; digest_update] = (digest_store, Returns tt)
  /\ fst (GetLatestUpdateBySource digest_store "s1")
     = Some (scan8 (row_of_update [] digest_update)).
Proof. split; reflexivity. Qed.

(** A source whose only attempt failed has no latest update. *)
Example only_attempt_failed :
  worker [] [first_failure] = ([row_of_update [] first_failure], Returns tt)
  /\ GetLatestUpdateBySource [row_of_update [] first_failure] "s2"
     = (None, None).
Proof. split; reflexivity. Qed.

Example stats_store_queries :
  List.map FetchedAt (fst (GetUpdatesByDateRange stats_store stats_date stats_date))
  = [1704067320000000000; 1704067260000000000; 1704067200000000000]
  /\ fst (GetDailyStats stats_store stats_date) !! "total_updates" = Some 3
  /\ fst (GetDailyStats stats_store stats_date) !! "successful_updates" = Some 2
  /\ fst (GetDailyStats stats_store stats_date) !! "failed_updates" = Some 1
  /\ fst (GetDailyStats stats_store stats_date) !! "unique_sources" = Some 2
  /\ fst (GetDailyStats stats_store stats_date) !! "total_size" = Some 30
  /\ fst (GetLatestUpdateBySource stats_store "a") = None
  /\ (SourceID <$> fst (GetLatestUpdateBySource stats_store "b")) = Some "b".
Proof. repeat split; vm_compute; reflexivity. Qed.

(** * Further properties of the code *)

(** ** The table under [SaveUpdate] and the worker *)

Lemma find_app_none {A : Type} (p : A -> bool) (l1 l2 : list A) :
  List.find p l1 = None -> List.find p (l1 ++ l2) = List.find p l2.
Proof.
  induction l1 as [|x l1 IH]; simpl; trivial.
  destruct (p x); [discriminate | exact IH].
Qed.

Lemma find_none_not_stored h s :
  ~ hash_stored h s -> List.find (hash_is h) s = None.
Proof.
  intros Hno. destruct (List.find (hash_is h) s) as [r|] eqn:Hf; trivial.
  apply List.find_some in Hf. destruct Hf as [Hin Hr].
  exfalso. apply Hno. exists r. now rewrite <- hash_is_true.
Qed.

Lemma scan8_row_of_update s u : scan8 (row_of_update s u) = persisted8 u.
Proof. reflexivity. Qed.

Lemma scan11_row_of_update s u : scan11 (row_of_update s u) = persisted11 u.
Proof. reflexivity. Qed.

(** A hash that is not stored yet is inserted, in both branches of
    [SaveUpdate]. *)
Lemma SaveUpdate_fresh s u :
  ~ hash_stored (Hash u) s ->
  SaveUpdate s u = Returns (s ++ [row_of_update s u], None).
Proof.
  intros Hno. unfold SaveUpdate.
  rewrite (GetUpdateByHash_missing s (Hash u) Hno).
  unfold exec_insert. simpl.
  destruct (existsb (hash_is (Hash u)) s) eqn:E.
  - apply hash_stored_existsb in E. contradiction.
  - destruct (negb (String.eqb (Hash u) "")); reflexivity.
Qed.

(** X1.  [GetUpdateByHash] answers in one of two ways, always with a
    nil error.  When the hash is not empty and some row carries it, the
    answer is found, together with a record that shows, column by
    column, a row of the table with that hash.  In every other case, an
    empty hash among them even if a row stores the empty text, the
    answer is not found and no record. *)
Theorem GetUpdateByHash_reports_stored (s : Store) (h : string) :
  (h <> "" /\ hash_stored h s
   /\ exists r u,
        In r s /\ col_hash r = Some h /\ shows_row8 r u /\ Hash u = h
        /\ GetUpdateByHash s h = (Some u, true, None))
  \/ ((h = "" \/ ~ hash_stored h s)
      /\ GetUpdateByHash s h = (None, false, None)).
Proof.
  destruct (GetUpdateByHash_shape s h) as [(r & Hin & Hr & Hne & Hget)|Hget].
  - left. split; [exact Hne|]. split; [now exists r|].
    exists r, (scan8 r). split; [exact Hin|]. split; [exact Hr|].
    split; [apply scan8_shows|]. split; [|exact Hget].
    simpl. now rewrite Hr.
  - right. split; [|exact Hget].
    destruct (String.eqb h "") eqn:E.
    + left. now apply String.eqb_eq.
    + right. intros Hst. apply String.eqb_neq in E.
      destruct (GetUpdateByHash_found s h E Hst) as (r & _ & _ & Hget').
      rewrite Hget in Hget'. discriminate.
Qed.

(** X2.  Saving an update whose non-empty hash is not stored yet appends
    its row, and a lookup by that hash then returns the update as
    persisted: same source, address, hash, status, flags and error
    detail, the fetch time cut to whole seconds, and neither body nor
    title, summary or content type. *)
Theorem SaveUpdate_then_GetUpdateByHash (s : Store) (u : Update) :
  Hash u <> "" -> ~ hash_stored (Hash u) s ->
  SaveUpdate s u = Returns (s ++ [row_of_update s u], None)
  /\ GetUpdateByHash (s ++ [row_of_update s u]) (Hash u)
     = (Some (persisted8 u), true, None)
  /\ FetchedAt (persisted8 u) <= FetchedAt u
     < FetchedAt (persisted8 u) + nanos_per_second.
Proof.
  intros Hne Hno. split; [now apply SaveUpdate_fresh|]. split.
  - unfold GetUpdateByHash. apply String.eqb_neq in Hne. rewrite Hne.
    rewrite (find_app_none _ _ _ (find_none_not_stored _ _ Hno)). simpl.
    unfold hash_is. simpl. now rewrite String.eqb_refl.
  - simpl. unfold nanos_per_second.
    pose proof (Z.mod_pos_bound (FetchedAt u) 1000000000 ltac:(lia)).
    pose proof (Z.div_mod (FetchedAt u) 1000000000 ltac:(lia)). lia.
Qed.

Lemma SaveUpdate_then_GetUpdateByHash_witness :
  SaveUpdate [] digest_update
  = Returns ([] ++ [row_of_update [] digest_update], None)
  /\ GetUpdateByHash ([] ++ [row_of_update [] digest_update]) (Hash digest_update)
     = (Some (persisted8 digest_update), true, None)
  /\ FetchedAt (persisted8 digest_update) <= FetchedAt digest_update
     < FetchedAt (persisted8 digest_update) + nanos_per_second.
Proof.
  apply (SaveUpdate_then_GetUpdateByHash [] digest_update).
  - discriminate.
  - intros (r & Hin & _). destruct Hin.
Defined.

(** One step of the worker leaves the table alone or appends the row of
    the update it handles. *)
Lemma worker_step_store s u :
  fst (worker_step s u) = s
  \/ fst (worker_step s u) = s ++ [row_of_update s u].
Proof.
  assert (Hsave : fst (save_and_log s u) = s
                  \/ fst (save_and_log s u) = s ++ [row_of_update s u]).
  { unfold save_and_log.
    destruct (SaveUpdate s u) as [[s' e]|msg] eqn:Hs; simpl; auto.
    assert (Hs' : s' = s \/ s' = s ++ [row_of_update s u]).
    { destruct (SaveUpdate_store _ _ _ _ Hs) as [->| ->]; auto.
      destruct (exec_insert_cases s (row_of_update s u)) as [[_ ->]|[_ ->]];
        auto. }
    destruct e; simpl; auto.
    destruct (Success u); simpl; auto.
    destruct (slice_to 8 (Hash u)); simpl; auto. }
  unfold worker_step.
  destruct (negb (String.eqb (Hash u) "")); trivial.
  destruct (GetUpdateByHash s (Hash u)) as [[o ex] err].
  destruct ex; trivial.
  destruct o as [existing|]; simpl; auto.
  destruct (negb (Before (FetchedAt existing) (FetchedAt u))); simpl; auto.
Qed.

(** The table after the worker is the table before, followed by the
    rows added. *)
Lemma worker_extends (updates : list Update) :
  forall s : Store, exists added, fst (worker s updates) = s ++ added.
Proof.
  induction updates as [|u rest IH]; intros s; simpl.
  - exists []. now rewrite List.app_nil_r.
  - destruct (worker_step_store s u) as [Hs|Hs];
      destruct (worker_step s u) as [s' [hd|msg]]; simpl in Hs; subst s'.
    + apply IH.
    + exists []. now rewrite List.app_nil_r.
    + destruct (IH (s ++ [row_of_update s u])) as (added & ->).
      exists ([row_of_update s u] ++ added). now rewrite List.app_assoc.
    + now exists [row_of_update s u].
Qed.

(** X3.  The table is append-only under the worker: whatever updates it
    handles, the rows that were there stay as they are and in place, at
    most one row is added per update, and every added row is the row
    that [SaveUpdate] binds for one of the updates. *)
Theorem worker_appends_only (updates : list Update) (s : Store) :
  exists added,
    fst (worker s updates) = s ++ added
    /\ (List.length added <= List.length updates)%nat
    /\ Forall (fun r => exists u s0, In u updates /\ r = row_of_update s0 u)
              added.
Proof.
  revert s. induction updates as [|u rest IH]; intros s; simpl.
  - exists []. rewrite List.app_nil_r. repeat split; auto.
  - assert (Hstep : exists one,
               fst (worker_step s u) = s ++ one
               /\ (List.length one <= 1)%nat
               /\ Forall (fun r => exists s0, r = row_of_update s0 u) one).
    { destruct (worker_step_store s u) as [H|H].
      - exists []. rewrite List.app_nil_r. repeat split; auto.
      - exists [row_of_update s u]. repeat split; auto.
        constructor; [|constructor]. now exists s. }
    destruct Hstep as (one & H1 & Hlen1 & Hall1).
    destruct (worker_step s u) as [s' [hd|msg]] eqn:Hw; simpl in H1; subst s'.
    + destruct (IH (s ++ one)) as (added & H2 & Hlen2 & Hall2).
      exists (one ++ added). rewrite H2, List.app_assoc, List.length_app.
      repeat split; [lia|].
      apply Forall_app. split.
      * eapply List.Forall_impl; [|exact Hall1].
        intros r (s0 & ->). exists u, s0. auto.
      * eapply List.Forall_impl; [|exact Hall2].
        intros r (u' & s0 & Hin & ->). exists u', s0. auto.
    + exists one. simpl. repeat split; [lia|].
      eapply List.Forall_impl; [|exact Hall1].
      intros r (s0 & ->). exists u, s0. auto.
Qed.

Lemma filter_successful_app sourceID (s : Store) (r : Row) :
  List.filter (successful_of sourceID) (s ++ [r])
  = List.filter (successful_of sourceID) s
    ++ (if successful_of sourceID r then [r] else []).
Proof. rewrite List.filter_app. reflexivity. Qed.

(** X4.  After the save of a successful update with a hash that is not
    stored yet, fetched in a later second than every successful row of
    its source, [GetLatestUpdateBySource] returns that update as
    persisted. *)
Theorem SaveUpdate_then_latest (s : Store) (u : Update) :
  Success u = true ->
  ~ hash_stored (Hash u) s ->
  (forall r, In r s -> col_source_id r = SourceID u -> col_success r = true ->
             col_fetched_at r < format_rfc3339 (FetchedAt u)) ->
  SaveUpdate s u = Returns (s ++ [row_of_update s u], None)
  /\ GetLatestUpdateBySource (s ++ [row_of_update s u]) (SourceID u)
     = (Some (persisted8 u), None).
Proof.
  intros Hsucc Hno Hnewer. split; [now apply SaveUpdate_fresh|].
  unfold GetLatestUpdateBySource. rewrite filter_successful_app.
  assert (Hrow : successful_of (SourceID u) (row_of_update s u) = true).
  { apply successful_of_true. simpl. auto. }
  rewrite Hrow.
  destruct (order_by_fetched_at_desc
              (List.filter (successful_of (SourceID u)) s ++ [row_of_update s u]))
    as [|h rest] eqn:Heq.
  - apply order_by_fetched_at_desc_nil in Heq.
    destruct (List.filter (successful_of (SourceID u)) s); discriminate.
  - apply order_by_fetched_at_desc_head in Heq. destruct Heq as [Hin Hmax].
    assert (Hle : col_fetched_at (row_of_update s u) <= col_fetched_at h).
    { apply Hmax. apply List.in_or_app. right. now left. }
    apply List.in_app_or in Hin. destruct Hin as [Hin|[<-|[]]].
    + apply List.filter_In in Hin. destruct Hin as [Hin Hok].
      apply successful_of_true in Hok. destruct Hok as [Hsrc Hs].
      pose proof (Hnewer h Hin Hsrc Hs). simpl in Hle. lia.
    + reflexivity.
Qed.

Lemma SaveUpdate_then_latest_witness :
  SaveUpdate [row_of_update [] first_failure] digest_update
  = Returns ([row_of_update [] first_failure]
             ++ [row_of_update [row_of_update [] first_failure] digest_update],
             None)
  /\ GetLatestUpdateBySource
       ([row_of_update [] first_failure]
        ++ [row_of_update [row_of_update [] first_failure] digest_update])
       (SourceID digest_update)
     = (Some (persisted8 digest_update), None).
Proof.
  apply (SaveUpdate_then_latest [row_of_update [] first_failure] digest_update).
  - reflexivity.
  - intros (r & [<-|[]] & Hr). discriminate Hr.
  - intros r [<-|[]] Hsrc. discriminate Hsrc.
Defined.

Lemma worker_step_keeps_latest s u sourceID :
  Success u = false \/ SourceID u <> sourceID ->
  GetLatestUpdateBySource (fst (worker_step s u)) sourceID
  = GetLatestUpdateBySource s sourceID.
Proof.
  intros Hu. destruct (worker_step_store s u) as [->| ->]; trivial.
  unfold GetLatestUpdateBySource. rewrite filter_successful_app.
  assert (Hrow : successful_of sourceID (row_of_update s u) = false).
  { unfold successful_of. simpl. destruct Hu as [->|Hne].
    - apply andb_false_r.
    - apply String.eqb_neq in Hne. now rewrite Hne. }
  rewrite Hrow, List.app_nil_r. reflexivity.
Qed.

(** X5.  Failed attempts, and updates of other sources, never move the
    latest successful update of a source: however many of them the
    worker handles, [GetLatestUpdateBySource] answers as before. *)
Theorem latest_unmoved_by_failures
  (updates : list Update) (s : Store) (sourceID : string) :
  Forall (fun u => Success u = false \/ SourceID u <> sourceID) updates ->
  GetLatestUpdateBySource (fst (worker s updates)) sourceID
  = GetLatestUpdateBySource s sourceID.
Proof.
  revert s. induction updates as [|u rest IH]; intros s Hall; simpl; trivial.
  inversion Hall as [|? ? Hu Hrest]; subst.
  pose proof (worker_step_keeps_latest s u sourceID Hu) as Hstep.
  destruct (worker_step s u) as [s' [hd|msg]]; simpl in *.
  - rewrite (IH s' Hrest). exact Hstep.
  - exact Hstep.
Qed.

Lemma latest_unmoved_by_failures_witness :
  GetLatestUpdateBySource
    (fst (worker digest_store [first_failure; second_failure])) "s1"
  = GetLatestUpdateBySource digest_store "s1".
Proof.
  apply (latest_unmoved_by_failures [first_failure; second_failure]
                                    digest_store "s1").
  repeat constructor.
Defined.

Lemma worker_step_known_hash s u :
  Hash u <> "" -> hash_stored (Hash u) s -> fst (worker_step s u) = s.
Proof.
  intros Hne Hst.
  destruct (GetUpdateByHash_found s (Hash u) Hne Hst) as (r & _ & _ & Hget).
  assert (Hsave : fst (save_and_log s u) = s).
  { unfold save_and_log, SaveUpdate. rewrite Hget.
    apply String.eqb_neq in Hne. rewrite Hne. simpl.
    destruct (slice_to 8 (Hash u)); simpl; trivial.
    destruct (Success u); trivial. }
  unfold worker_step. rewrite Hget.
  destruct (negb (String.eqb (Hash u) "")); trivial.
  destruct (negb (Before (FetchedAt (scan8 r)) (FetchedAt u))); trivial.
Qed.

(** X6.  Once a non-empty hash is stored, no later update with that hash
    changes the table, whatever its fetch time: the check of the worker
    may let a later fetch through, but [SaveUpdate] then skips it, so a
    row keeps the fetch time of the first save of its content. *)
Theorem worker_known_hashes_change_nothing (updates : list Update) (s : Store) :
  Forall (fun u => Hash u <> "" /\ hash_stored (Hash u) s) updates ->
  fst (worker s updates) = s.
Proof.
  induction updates as [|u rest IH]; intros Hall; simpl; trivial.
  inversion Hall as [|? ? [Hne Hst] Hrest]; subst.
  pose proof (worker_step_known_hash s u Hne Hst) as Hstep.
  destruct (worker_step s u) as [s' [hd|msg]]; simpl in Hstep; subst s'; simpl.
  - now apply IH.
  - reflexivity.
Qed.

Lemma worker_known_hashes_change_nothing_witness :
  fst (worker digest_store [digest_update; digest_update]) = digest_store.
Proof.
  apply (worker_known_hashes_change_nothing [digest_update; digest_update]
                                            digest_store).
  assert (H : Hash digest_update <> ""
              /\ hash_stored (Hash digest_update) digest_store).
  { split; [discriminate|].
    exists (row_of_update [] digest_update). split; [left|]; reflexivity. }
  repeat constructor; apply H.
Defined.

Lemma worker_hashless_dropped (updates : list Update) (s : Store) :
  hash_stored "" s ->
  Forall (fun v => Hash v = "") updates ->
  worker s updates = (s, Returns tt).
Proof.
  intros Hst. induction updates as [|v rest IH]; intros Hall; simpl; trivial.
  inversion Hall as [|? ? Hv Hrest]; subst.
  unfold worker_step, save_and_log. rewrite Hv. simpl.
  rewrite (SaveUpdate_hashless_again s v Hv Hst). now apply IH.
Qed.

(** X7.  Of any run of updates without a hash, the table takes the
    first and no other: on a table that holds no row with the empty
    hash text the worker stores the first failure, and every later
    update with an empty hash is refused by the INSERT and dropped, the
    worker going on to the end of the queue. *)
Theorem worker_keeps_first_hashless_only
  (s : Store) (u : Update) (updates : list Update) :
  ~ hash_stored "" s ->
  Hash u = "" -> Success u = false ->
  Forall (fun v => Hash v = "") updates ->
  worker s (u :: updates) = (s ++ [row_of_update s u], Returns tt).
Proof.
  intros Hno Hu Hfail Hall. simpl.
  unfold worker_step, save_and_log. rewrite Hu. simpl.
  rewrite (SaveUpdate_hashless_first s u Hu Hno), Hfail.
  apply worker_hashless_dropped; trivial.
  exists (row_of_update s u). split.
  - apply List.in_or_app. right. now left.
  - simpl. now rewrite Hu.
Qed.

Lemma worker_keeps_first_hashless_only_witness :
  worker [] (first_failure :: [second_failure; first_failure])
  = ([] ++ [row_of_update [] first_failure], Returns tt).
Proof.
  apply (worker_keeps_first_hashless_only
           [] first_failure [second_failure; first_failure]).
  - intros (r & [] & _).
  - reflexivity.
  - reflexivity.
  - repeat constructor.
Defined.

Lemma worker_step_loggable s u :
  loggable u -> exists hd, snd (worker_step s u) = Returns hd.
Proof.
  intros Hlog.
  assert (Hsave : exists hd, snd (save_and_log s u) = Returns hd).
  { unfold save_and_log. destruct Hlog as [[Hh Hf]|Hlen].
    - rewrite (SaveUpdate_hashless s u Hh).
      destruct (exec_insert s (row_of_update s u)) as [s' [e|]]; simpl; eauto.
      rewrite Hf. simpl. eauto.
    - assert (Hne : Hash u <> "") by (apply length_nonempty; lia).
      destruct (existsb (hash_is (Hash u)) s) eqn:E.
      + apply hash_stored_existsb in E.
        rewrite (SaveUpdate_known_hash s u Hlen E).
        rewrite (slice_to_ok 8 (Hash u) Hlen).
        destruct (Success u); simpl; eauto.
      + assert (Hno : ~ hash_stored (Hash u) s)
          by (rewrite hash_stored_existsb; congruence).
        rewrite (SaveUpdate_fresh s u Hno).
        rewrite (slice_to_ok 8 (Hash u) Hlen).
        destruct (Success u); simpl; eauto. }
  unfold worker_step.
  destruct (negb (String.eqb (Hash u) "")); trivial.
  destruct (GetUpdateByHash_shape s (Hash u)) as [(r & _ & _ & _ & Hget)|Hget];
    rewrite Hget; trivial.
  destruct (negb (Before (FetchedAt (scan8 r)) (FetchedAt u))); simpl; eauto.
Qed.

(** The worker reaches the end of its queue when each step returns. *)
Lemma worker_returns_when_steps_return (P : Update -> Prop) :
  (forall s u, P u -> exists hd, snd (worker_step s u) = Returns hd) ->
  forall (updates : list Update) (s : Store),
    Forall P updates -> snd (worker s updates) = Returns tt.
Proof.
  intros Hstep. induction updates as [|u rest IH]; intros s Hall; simpl; trivial.
  inversion Hall as [|? ? Hu Hrest]; subst.
  destruct (Hstep s u Hu) as (hd & Hhd).
  destruct (worker_step s u) as [s' o]. simpl in Hhd. subst o.
  now apply IH.
Qed.

(** X8.  The worker reaches the end of its queue without a panic when
    every update is either a failure without a hash or carries a hash of
    at least eight characters. *)
Theorem worker_completes_on_loggable (updates : list Update) (s : Store) :
  Forall loggable updates -> snd (worker s updates) = Returns tt.
Proof.
  intros Hall.
  apply (worker_returns_when_steps_return loggable); trivial.
  intros s0 u Hu. now apply worker_step_loggable.
Qed.

Lemma worker_completes_on_loggable_witness :
  snd (worker [] [first_failure; digest_update; digest_update]) = Returns tt.
Proof.
  apply (worker_completes_on_loggable
           [first_failure; digest_update; digest_update] []).
  constructor; [left; split; reflexivity|].
  constructor; [right; simpl; lia|].
  constructor; [right; simpl; lia|].
  constructor.
Defined.

(** ** What the scrapers send *)

Section ScraperOutput.

Variable sha256_hex : list Byte.byte -> string.

Lemma Scrape_update_fields
  (w : World) (ctx : Context) (src : Source) (u : Update) :
  In u (fst (ScraperManager_Scrape sha256_hex w ctx src)) ->
  SourceID u = ID src /\ URL u = Source_URL src
  /\ FetchedAt u = Now w /\ RetryCount u = 0
  /\ (if Success u
      then Hash u = sha256_hex (Body u) /\ ErrorDetail u = ""
      else Hash u = "" /\ Body u = []).
Proof.
  unfold ScraperManager_Scrape, BrowserScraper_Scrape, HTTPScraper_Scrape.
  destruct (JSRendered src).
  - intros [<-|[]]. simpl. repeat (split; trivial).
  - destruct (NewRequestWithContext w (Source_URL src)) as [err|];
      [intros []|].
    destruct (client_Do w ctx (Source_URL src)) as [e|st e|st body];
      intros [<-|[]]; simpl; repeat (split; trivial).
Qed.

(** X9.  Whichever scraper the dispatcher picks, the returned error is
    nil exactly when the one update sent has [Success] set; every update
    sent names the source and its address, is stamped with the current
    time and a retry count of zero, and carries either the digest of its
    body and no error detail (a success) or no hash and no body (a
    failure). *)
Theorem Scrape_error_matches_update
  (w : World) (ctx : Context) (src : Source) :
  (snd (ScraperManager_Scrape sha256_hex w ctx src) = None
   <-> exists u,
         fst (ScraperManager_Scrape sha256_hex w ctx src) = [u]
         /\ Success u = true)
  /\ (forall u,
        In u (fst (ScraperManager_Scrape sha256_hex w ctx src)) ->
        SourceID u = ID src /\ URL u = Source_URL src
        /\ FetchedAt u = Now w /\ RetryCount u = 0
        /\ (if Success u
            then Hash u = sha256_hex (Body u) /\ ErrorDetail u = ""
            else Hash u = "" /\ Body u = [])).
Proof.
  split; [|intros u; apply Scrape_update_fields].
  unfold ScraperManager_Scrape, BrowserScraper_Scrape, HTTPScraper_Scrape.
  destruct (JSRendered src).
  - simpl. split; [discriminate|]. intros (u & Hu & Hs).
    inversion Hu; subst u. discriminate Hs.
  - destruct (NewRequestWithContext w (Source_URL src)) as [err|].
    + simpl. split; [discriminate|]. intros (u & Hu & _). discriminate Hu.
    + destruct (client_Do w ctx (Source_URL src)) as [e|st e|st body]; simpl.
      * split; [discriminate|]. intros (u & Hu & Hs).
        inversion Hu; subst u. discriminate Hs.
      * split; [discriminate|]. intros (u & Hu & Hs).
        inversion Hu; subst u. discriminate Hs.
      * split; trivial. intros _. eexists. split; reflexivity.
Qed.

(** Every digest has the sixty-four characters of a SHA-256 value in
    hexadecimal. *)
Hypothesis sha256_hex_length :
  forall body, String.length (sha256_hex body) = 64%nat.

Lemma Scrape_sends_loggable (w : World) (ctx : Context) (src : Source) :
  Forall loggable (fst (ScraperManager_Scrape sha256_hex w ctx src)).
Proof.
  apply List.Forall_forall. intros u Hin.
  destruct (Scrape_update_fields w ctx src u Hin) as (_ & _ & _ & _ & Hcase).
  destruct (Success u) eqn:Hs.
  - right. destruct Hcase as [-> _]. rewrite sha256_hex_length. lia.
  - left. tauto.
Qed.

End ScraperOutput.

(** ** Range queries and saved updates *)

Lemma filter_none {A : Type} (p : A -> bool) (l : list A) :
  (forall x, In x l -> p x = false) -> List.filter p l = [].
Proof.
  induction l as [|x l IH]; intros Hall; simpl; trivial.
  rewrite (Hall x (or_introl eq_refl)). apply IH.
  intros y Hy. apply Hall. now right.
Qed.

(** X11.  A range whose end day lies before its start day selects
    nothing: [GetUpdatesByDateRange] returns no update and no error. *)
Theorem GetUpdatesByDateRange_inverted (s : Store) (startDate endDate : Time) :
  format_date endDate < format_date startDate ->
  GetUpdatesByDateRange s startDate endDate = ([], None).
Proof.
  intros Hlt. unfold GetUpdatesByDateRange.
  rewrite filter_none; [reflexivity|].
  intros r _. apply not_true_is_false. rewrite in_date_range_true. lia.
Qed.

Lemma GetUpdatesByDateRange_inverted_witness :
  GetUpdatesByDateRange stats_store (stats_date + 86400000000000) stats_date
  = ([], None).
Proof.
  apply (GetUpdatesByDateRange_inverted stats_store).
  vm_compute. reflexivity.
Defined.

Lemma sql_date_format_rfc3339 (t : Time) :
  sql_date (format_rfc3339 t) = format_date t.
Proof.
  unfold sql_date, format_rfc3339, format_date, seconds_per_day,
    nanos_per_second.
  rewrite Z.div_div by lia. reflexivity.
Qed.

(** X12.  A saved update comes back from every range query whose days
    include its fetch day, with all its text fields and its fetch time
    cut to the second; the body is never part of what a range query
    returns. *)
Theorem SaveUpdate_then_range
  (s : Store) (u : Update) (startDate endDate : Time) :
  ~ hash_stored (Hash u) s ->
  format_date startDate <= format_date (FetchedAt u) <= format_date endDate ->
  SaveUpdate s u = Returns (s ++ [row_of_update s u], None)
  /\ In (persisted11 u)
        (fst (GetUpdatesByDateRange (s ++ [row_of_update s u]) startDate endDate))
  /\ forall (s' : Store) (u' : Update),
       In u' (fst (GetUpdatesByDateRange s' startDate endDate)) -> Body u' = [].
Proof.
  intros Hno Hday. split; [now apply SaveUpdate_fresh|]. split.
  - unfold GetUpdatesByDateRange. cbn [fst].
    rewrite <- (scan11_row_of_update s u). apply List.in_map.
    apply order_by_fetched_at_desc_In, List.filter_In. split.
    + apply List.in_or_app. right. now left.
    + apply in_date_range_true. simpl. now rewrite sql_date_format_rfc3339.
  - intros s' u' Hin. unfold GetUpdatesByDateRange in Hin. cbn [fst] in Hin.
    apply List.in_map_iff in Hin. destruct Hin as (r & <- & _). reflexivity.
Qed.

Lemma SaveUpdate_then_range_witness :
  SaveUpdate [] digest_update
  = Returns ([] ++ [row_of_update [] digest_update], None)
  /\ In (persisted11 digest_update)
        (fst (GetUpdatesByDateRange ([] ++ [row_of_update [] digest_update])
                                    stats_date stats_date))
  /\ forall (s' : Store) (u' : Update),
       In u' (fst (GetUpdatesByDateRange s' stats_date stats_date)) ->
       Body u' = [].
Proof.
  apply (SaveUpdate_then_range [] digest_update stats_date stats_date).
  - intros (r & [] & _).
  - vm_compute. split; intros H; discriminate H.
Defined.

(** ** Statistics of a day *)

Lemma sql_count_weight rows : sql_count rows = weight_sum (fun _ => 1) rows.
Proof.
  unfold sql_count. induction rows as [|r rows IH]; simpl; trivial.
  rewrite <- IH. lia.
Qed.

Lemma sql_count_when_weight (c : Row -> bool) rows :
  sql_count_when c rows = weight_sum (fun r => if c r then 1 else 0) rows.
Proof.
  unfold sql_count_when, sql_count.
  induction rows as [|r rows IH]; simpl; trivial.
  destruct (c r); simpl; rewrite <- IH; lia.
Qed.

Lemma fold_left_add_shift (xs : list Z) (a : Z) :
  fold_left Z.add xs a = a + fold_left Z.add xs 0.
Proof.
  revert a. induction xs as [|x xs IH]; intros a; [simpl; lia|].
  change (fold_left Z.add (x :: xs) a) with (fold_left Z.add xs (a + x)).
  change (fold_left Z.add (x :: xs) 0) with (fold_left Z.add xs (0 + x)).
  rewrite (IH (a + x)), (IH (0 + x)). lia.
Qed.

Lemma sql_sum_body_size_weight rows :
  NullInt64_Int64 (sql_sum_body_size rows)
  = weight_sum (fun r => default 0 (col_body_size r)) rows.
Proof.
  unfold sql_sum_body_size.
  assert (H : forall l,
             fold_left Z.add (omap col_body_size l) 0
             = weight_sum (fun r => default 0 (col_body_size r)) l).
  { induction l as [|r l IH]; simpl; trivial.
    destruct (col_body_size r) as [x|]; simpl;
      change (list_omap _ _ col_body_size l) with (omap col_body_size l).
    - rewrite fold_left_add_shift, IH. lia.
    - rewrite IH. lia. }
  rewrite <- H.
  destruct (omap col_body_size rows) as [|x xs]; reflexivity.
Qed.

Lemma weight_sum_filter_other (w : Row -> Z) (k : string) (rows : list Row) :
  weight_sum w rows
  = weight_sum w (List.filter (fun r => String.eqb (col_source_id r) k) rows)
    + weight_sum w
        (List.filter (fun r => negb (String.eqb (col_source_id r) k)) rows).
Proof.
  induction rows as [|r rows IH]; simpl; trivial.
  destruct (String.eqb (col_source_id r) k); simpl; lia.
Qed.

Lemma filter_key_after_other (k k' : string) (rows : list Row) :
  k' <> k ->
  List.filter (fun r => String.eqb (col_source_id r) k')
    (List.filter (fun r => negb (String.eqb (col_source_id r) k)) rows)
  = List.filter (fun r => String.eqb (col_source_id r) k') rows.
Proof.
  intros Hne. induction rows as [|r rows IH]; simpl; trivial.
  destruct (String.eqb (col_source_id r) k) eqn:Ek; simpl.
  - apply String.eqb_eq in Ek.
    destruct (String.eqb (col_source_id r) k') eqn:Ek'; trivial.
    apply String.eqb_eq in Ek'. congruence.
  - rewrite IH. reflexivity.
Qed.

Lemma groups_after_other (w : Row -> Z) (k : string) (rows : list Row) :
  forall keys : list string,
    ~ In k keys ->
    fold_right
      (fun k' acc =>
         weight_sum w
           (List.filter (fun r => String.eqb (col_source_id r) k')
              (List.filter (fun r => negb (String.eqb (col_source_id r) k)) rows))
         + acc)
      0 keys
    = fold_right
        (fun k' acc =>
           weight_sum w
             (List.filter (fun r => String.eqb (col_source_id r) k') rows)
           + acc)
        0 keys.
Proof.
  induction keys as [|k' keys IH]; intros Hnotin; simpl; trivial.
  rewrite filter_key_after_other.
  - f_equal. apply IH. intros Hin. apply Hnotin. now right.
  - intros ->. apply Hnotin. now left.
Qed.

(** A weight summed group by group, over distinct keys that cover the
    rows, is the weight summed over all rows. *)
Lemma weight_sum_by_source (w : Row -> Z) (keys : list string) :
  forall rows : list Row,
    List.NoDup keys ->
    (forall r, In r rows -> In (col_source_id r) keys) ->
    fold_right
      (fun k acc =>
         weight_sum w (List.filter (fun r => String.eqb (col_source_id r) k) rows)
         + acc)
      0 keys
    = weight_sum w rows.
Proof.
  induction keys as [|k keys IH]; intros rows Hnd Hcover; simpl.
  - destruct rows as [|r rows]; trivial.
    destruct (Hcover r (or_introl eq_refl)).
  - inversion Hnd as [|? ? Hnotin Hnd']; subst.
    rewrite (weight_sum_filter_other w k rows). f_equal.
    rewrite <- (groups_after_other w k rows keys Hnotin).
    apply IH; trivial.
    intros r Hr. apply List.filter_In in Hr. destruct Hr as [Hr Hk].
    simpl in Hk. destruct (Hcover r Hr) as [Heq|Hin]; trivial.
    rewrite Heq, String.eqb_refl in Hk. discriminate.
Qed.

(** X13.  For a day on which no update was fetched, the three queries of
    the report agree on nothing: no update in the range, no source in
    the statistics by source, and zero under every count of the daily
    statistics, the byte volume included (the NULL of [SUM] reads as
    zero). *)
Theorem day_without_updates (s : Store) (date : Time) :
  (forall r, In r s -> sql_date (col_fetched_at r) <> format_date date) ->
  GetUpdatesByDateRange s date date = ([], None)
  /\ GetSourceStats s date = (∅, None)
  /\ snd (GetDailyStats s date) = None
  /\ Forall (fun key => fst (GetDailyStats s date) !! key = Some 0)
            ["total_updates"; "successful_updates"; "failed_updates";
             "unique_sources"; "total_size"].
Proof.
  intros Hnone.
  assert (Hf : List.filter (on_date date) s = []).
  { apply filter_none. intros r Hr. apply Z.eqb_neq. now apply Hnone. }
  unfold GetUpdatesByDateRange, GetSourceStats, GetDailyStats,
    source_stats_rows.
  rewrite filter_single_day, Hf. split; [reflexivity|]. split; [reflexivity|].
  split; [reflexivity|]. repeat constructor.
Qed.

Lemma day_without_updates_witness :
  GetUpdatesByDateRange stats_store 0 0 = ([], None)
  /\ GetSourceStats stats_store 0 = (∅, None)
  /\ snd (GetDailyStats stats_store 0) = None
  /\ Forall (fun key => fst (GetDailyStats stats_store 0) !! key = Some 0)
            ["total_updates"; "successful_updates"; "failed_updates";
             "unique_sources"; "total_size"].
Proof.
  apply (day_without_updates stats_store 0).
  intros r [<-|[<-|[<-|[]]]]; vm_compute; intros H; discriminate H.
Defined.

(** Storing result rows with fresh, distinct keys adds one entry per
    row. *)
Lemma collect_size (rows : list GroupRow) :
  forall m : gmap string (gmap string Z),
    List.NoDup (List.map g_source_id rows) ->
    (forall g, In g rows -> m !! g_source_id g = None) ->
    size (fold_left (fun stats g => <[g_source_id g := stats_entry g]> stats)
                    rows m)
    = (size m + List.length rows)%nat.
Proof.
  induction rows as [|g rows IH]; intros m Hnd Hfresh; simpl; [lia|].
  inversion Hnd as [|? ? Hnotin Hnd']; subst.
  rewrite IH; trivial.
  - rewrite map_size_insert_None by (apply Hfresh; now left). lia.
  - intros g' Hg'. rewrite lookup_insert_ne.
    + apply Hfresh. now right.
    + intros Heq. apply Hnotin. rewrite Heq. now apply List.in_map.
Qed.

Lemma collect_sum (key : string) (field : GroupRow -> Z) (rows : list GroupRow) :
  (forall g, stats_entry g !! key = Some (field g)) ->
  forall m : gmap string (gmap string Z),
    List.NoDup (List.map g_source_id rows) ->
    (forall g, In g rows -> m !! g_source_id g = None) ->
    sum_over_sources key
      (fold_left (fun stats g => <[g_source_id g := stats_entry g]> stats)
                 rows m)
    = sum_over_sources key m + fold_right (fun g acc => field g + acc) 0 rows.
Proof.
  intros Hfield. induction rows as [|g rows IH]; intros m Hnd Hfresh; simpl.
  - lia.
  - inversion Hnd as [|? ? Hnotin Hnd']; subst.
    rewrite IH; trivial.
    + unfold sum_over_sources at 1.
      rewrite map_fold_insert_L.
      * fold (sum_over_sources key m). rewrite Hfield. simpl. lia.
      * intros. lia.
      * apply Hfresh. now left.
    + intros g' Hg'. rewrite lookup_insert_ne.
      * apply Hfresh. now right.
      * intros Heq. apply Hnotin. rewrite Heq. now apply List.in_map.
Qed.

Lemma group_by_source_NoDup (rows : list Row) :
  List.NoDup (List.map g_source_id (group_by_source rows)).
Proof.
  rewrite group_by_source_keys. apply NoDup_ListNoDup, NoDup_remove_dups.
Qed.

Lemma GetSourceStats_unsorted (s : Store) (date : Time) :
  fst (GetSourceStats s date)
  = collect_stats (group_by_source (List.filter (on_date date) s)).
Proof.
  unfold GetSourceStats. cbn [fst].
  apply collect_stats_Permutation.
  - apply source_stats_rows_NoDup.
  - apply source_stats_rows_perm.
Qed.

Lemma source_key_listed (rows : list Row) (r : Row) :
  In r rows -> In (col_source_id r) (remove_dups (List.map col_source_id rows)).
Proof.
  intros Hr. apply list_elem_of_In, elem_of_remove_dups, list_elem_of_In.
  now apply List.in_map.
Qed.

Lemma fold_right_map_sum {A B : Type} (f : B -> Z) (mk : A -> B) (keys : list A) :
  fold_right (fun g acc => f g + acc) 0 (List.map mk keys)
  = fold_right (fun k acc => f (mk k) + acc) 0 keys.
Proof. induction keys as [|k keys IH]; simpl; [|rewrite IH]; reflexivity. Qed.

Lemma fold_right_sum_ext {A : Type} (f g : A -> Z) (keys : list A) :
  (forall k, In k keys -> f k = g k) ->
  fold_right (fun k acc => f k + acc) 0 keys
  = fold_right (fun k acc => g k + acc) 0 keys.
Proof.
  induction keys as [|k keys IH]; intros Hext; simpl; trivial.
  rewrite IH by (intros k' Hk'; apply Hext; now right).
  rewrite (Hext k (or_introl eq_refl)). reflexivity.
Qed.

Lemma sum_over_groups
  (key : string) (field : GroupRow -> Z) (w : Row -> Z) (rows : list Row) :
  (forall g, stats_entry g !! key = Some (field g)) ->
  (forall g, In g (group_by_source rows) ->
             field g
             = weight_sum w
                 (List.filter
                    (fun r => String.eqb (col_source_id r) (g_source_id g))
                    rows)) ->
  sum_over_sources key (collect_stats (group_by_source rows))
  = weight_sum w rows.
Proof.
  intros Hfield Hw. unfold collect_stats.
  rewrite (collect_sum key field _ Hfield ∅ (group_by_source_NoDup rows))
    by (intros; apply lookup_empty).
  unfold sum_over_sources at 1. rewrite map_fold_empty. simpl.
  rewrite <- (weight_sum_by_source w (remove_dups (List.map col_source_id rows))
                rows).
  - unfold group_by_source at 1. rewrite fold_right_map_sum.
    apply fold_right_sum_ext. intros k Hk.
    rewrite Hw; [reflexivity|].
    unfold group_by_source. apply List.in_map_iff. exists k. auto.
  - apply NoDup_ListNoDup, NoDup_remove_dups.
  - apply source_key_listed.
Qed.

(** X14.  The statistics by source of a day are a breakdown of its daily
    statistics: there are as many sources in the one as the other counts
    under ["unique_sources"], and the totals, the successes, the
    failures and the byte volumes of the sources add up to the daily
    figures. *)
Theorem source_stats_add_up_to_daily (s : Store) (date : Time) :
  let daily := fst (GetDailyStats s date) in
  let by_source := fst (GetSourceStats s date) in
  daily !! "unique_sources" = Some (Z.of_nat (size by_source))
  /\ Forall (fun key =>
               daily !! key = Some (sum_over_sources key by_source))
            ["total_updates"; "successful_updates"; "failed_updates";
             "total_size"].
Proof.
  cbv zeta. rewrite GetSourceStats_unsorted.
  set (rows := List.filter (on_date date) s).
  unfold GetDailyStats. cbn [fst]. fold rows. split.
  - rewrite !(lookup_insert_ne _ _ "unique_sources") by discriminate.
    rewrite lookup_insert_eq. unfold collect_stats.
    rewrite (collect_size _ ∅ (group_by_source_NoDup rows))
      by (intros; apply lookup_empty).
    rewrite map_size_empty. simpl. unfold sql_count_distinct_source.
    do 2 f_equal. unfold group_by_source. now rewrite List.length_map.
  - constructor; [|constructor; [|constructor; [|constructor; [|constructor]]]].
    + rewrite lookup_insert_ne by discriminate. rewrite lookup_insert_eq.
      f_equal. rewrite sql_count_weight. symmetry.
      apply (sum_over_groups "total_updates" g_total_updates).
      * intros g. apply lookup_insert_eq.
      * intros g Hg. unfold group_by_source in Hg.
        apply List.in_map_iff in Hg. destruct Hg as (k & <- & _). simpl.
        apply sql_count_weight.
    + rewrite !(lookup_insert_ne _ _ "successful_updates") by discriminate.
      rewrite lookup_insert_eq.
      f_equal. rewrite sql_count_when_weight. symmetry.
      apply (sum_over_groups "successful_updates" g_successful_updates).
      * intros g. unfold stats_entry.
        rewrite lookup_insert_ne by discriminate. apply lookup_insert_eq.
      * intros g Hg. unfold group_by_source in Hg.
        apply List.in_map_iff in Hg. destruct Hg as (k & <- & _). simpl.
        apply sql_count_when_weight.
    + rewrite !(lookup_insert_ne _ _ "failed_updates") by discriminate.
      rewrite lookup_insert_eq.
      f_equal. rewrite sql_count_when_weight. symmetry.
      apply (sum_over_groups "failed_updates" g_failed_updates).
      * intros g. unfold stats_entry.
        rewrite !(lookup_insert_ne _ _ "failed_updates") by discriminate.
        apply lookup_insert_eq.
      * intros g Hg. unfold group_by_source in Hg.
        apply List.in_map_iff in Hg. destruct Hg as (k & <- & _). simpl.
        apply sql_count_when_weight.
    + rewrite !(lookup_insert_ne _ _ "total_size") by discriminate.
      rewrite lookup_insert_eq.
      f_equal. rewrite sql_sum_body_size_weight. symmetry.
      apply (sum_over_groups "total_size"
               (fun g => NullInt64_Int64 (g_total_size g))).
      * intros g. unfold stats_entry.
        rewrite !(lookup_insert_ne _ _ "total_size") by discriminate.
        apply lookup_insert_eq.
      * intros g Hg. unfold group_by_source in Hg.
        apply List.in_map_iff in Hg. destruct Hg as (k & <- & _). simpl.
        apply sql_sum_body_size_weight.
Qed.

(** ** The statistics by source and the updates of the day *)

Lemma filter_Permutation_bool {A : Type} (p : A -> bool) (l l' : list A) :
  Permutation l l' -> Permutation (List.filter p l) (List.filter p l').
Proof.
  induction 1 as [|x l l' Hp IH|x y l|l l' l'' Hp1 IH1 Hp2 IH2]; simpl.
  - constructor.
  - destruct (p x); [now constructor | exact IH].
  - destruct (p x), (p y); try reflexivity. apply perm_swap.
  - now transitivity (List.filter p l').
Qed.

Lemma filter_map_scan11 (p : Update -> bool) (rows : list Row) :
  List.filter p (List.map scan11 rows)
  = List.map scan11 (List.filter (fun r => p (scan11 r)) rows).
Proof.
  induction rows as [|r rows IH]; simpl; trivial.
  destruct (p (scan11 r)); simpl; now rewrite IH.
Qed.

(** The updates of a source in the list of a day are the scanned rows of
    that source and day, in some order. *)
Lemma listed_updates_of_source (s : Store) (date : Time) (sourceID : string) :
  exists rows,
    updates_of sourceID (fst (GetUpdatesByDateRange s date date))
    = List.map scan11 rows
    /\ Permutation rows
         (List.filter (fun r => String.eqb (col_source_id r) sourceID)
                      (List.filter (on_date date) s)).
Proof.
  unfold updates_of, GetUpdatesByDateRange. cbn [fst].
  rewrite filter_map_scan11, filter_single_day.
  eexists. split; [reflexivity|].
  apply filter_Permutation_bool, order_by_fetched_at_desc_perm.
Qed.

(** The total that the statistics give for a source is the number of
    its updates in the list of the day, and there is a total only for a
    source with an update in the list. *)
Lemma source_total_counts_listed (s : Store) (date : Time) (sourceID : string) :
  let listed := updates_of sourceID (fst (GetUpdatesByDateRange s date date)) in
  match fst (GetSourceStats s date) !! sourceID with
  | None => listed = []
  | Some entry =>
      listed <> []
      /\ entry !! "total_updates" = Some (Z.of_nat (List.length listed))
  end.
Proof.
  cbv zeta.
  destruct (listed_updates_of_source s date sourceID) as (rows & -> & Hp).
  rewrite (GetSourceStats_lookup s date sourceID). cbv zeta.
  remember (List.filter (fun r => String.eqb (col_source_id r) sourceID)
                        (List.filter (on_date date) s)) as grp eqn:Hgrp.
  clear Hgrp. destruct grp as [|r0 grp0].
  - apply Permutation_sym, Permutation_nil in Hp. now rewrite Hp.
  - split.
    + intros Hnil. apply List.map_eq_nil in Hnil. subst rows.
      apply Permutation_nil in Hp. discriminate.
    + rewrite lookup_insert_eq. unfold sql_count.
      rewrite List.length_map. do 2 f_equal. symmetry.
      now apply Permutation_length.
Qed.

Lemma filter_length_app {A : Type} (p : A -> bool) (l l' : list A) :
  (List.length (List.filter p l) <= List.length (List.filter p (l ++ l')))%nat.
Proof. rewrite List.filter_app, List.length_app. lia. Qed.

(** A larger table lists at least as many updates, of the day and of
    each source. *)
Lemma listed_grows (s added : Store) (date : Time) :
  (List.length (fst (GetUpdatesByDateRange s date date))
   <= List.length (fst (GetUpdatesByDateRange (s ++ added) date date)))%nat
  /\ forall sourceID,
       (List.length
          (updates_of sourceID (fst (GetUpdatesByDateRange s date date)))
        <= List.length
             (updates_of sourceID
                (fst (GetUpdatesByDateRange (s ++ added) date date))))%nat.
Proof.
  split.
  - unfold GetUpdatesByDateRange. cbn [fst]. rewrite !List.length_map.
    rewrite !(Permutation_length (order_by_fetched_at_desc_perm _)).
    apply filter_length_app.
  - intros sourceID.
    destruct (listed_updates_of_source s date sourceID) as (rows & -> & Hp).
    destruct (listed_updates_of_source (s ++ added) date sourceID)
      as (rows' & -> & Hp').
    rewrite !List.length_map, (Permutation_length Hp), (Permutation_length Hp').
    rewrite List.filter_app, List.filter_app, List.length_app. lia.
Qed.

(** X15.  The statistics by source count the updates that the range
    query lists for the day: a source has an entry exactly when the list
    holds an update of it, and its total, successes and failures are the
    numbers of its listed updates, of those with [Success] set and of
    those without. *)
Theorem source_stats_count_listed_updates
  (s : Store) (date : Time) (sourceID : string) :
  let listed := updates_of sourceID (fst (GetUpdatesByDateRange s date date)) in
  match fst (GetSourceStats s date) !! sourceID with
  | None => listed = []
  | Some entry =>
      listed <> []
      /\ entry !! "total_updates" = Some (Z.of_nat (List.length listed))
      /\ entry !! "successful_updates"
         = Some (Z.of_nat (List.length (List.filter Success listed)))
      /\ entry !! "failed_updates"
         = Some (Z.of_nat
                   (List.length
                      (List.filter (fun u => negb (Success u)) listed)))
  end.
Proof.
  cbv zeta.
  destruct (listed_updates_of_source s date sourceID) as (rows & -> & Hp).
  rewrite (GetSourceStats_lookup s date sourceID). cbv zeta.
  remember (List.filter (fun r => String.eqb (col_source_id r) sourceID)
                        (List.filter (on_date date) s)) as grp eqn:Hgrp.
  clear Hgrp.
  assert (Hlen : forall c : Row -> bool,
             List.length (List.filter c rows) = List.length (List.filter c grp)).
  { intros c. apply Permutation_length. now apply filter_Permutation_bool. }
  destruct grp as [|r0 grp0].
  - apply Permutation_sym, Permutation_nil in Hp. now rewrite Hp.
  - split; [|split; [|split]].
    + intros Hnil. apply List.map_eq_nil in Hnil. subst rows.
      apply Permutation_nil in Hp. discriminate.
    + rewrite lookup_insert_eq. unfold sql_count.
      rewrite List.length_map. do 2 f_equal. symmetry.
      now apply Permutation_length.
    + rewrite lookup_insert_ne by discriminate. rewrite lookup_insert_eq.
      rewrite filter_map_scan11, List.length_map.
      unfold sql_count_when, sql_count. do 2 f_equal. symmetry.
      apply (Hlen is_success).
    + rewrite !(lookup_insert_ne _ _ "failed_updates") by discriminate.
      rewrite lookup_insert_eq.
      rewrite filter_map_scan11, List.length_map.
      unfold sql_count_when, sql_count. do 2 f_equal. symmetry.
      apply (Hlen is_failure).
Qed.

(** ** The daily report *)

Lemma daily_total_listed (s : Store) (date : Time) :
  fst (GetDailyStats s date) !! "total_updates"
  = Some (Z.of_nat (List.length (fst (GetUpdatesByDateRange s date date)))).
Proof.
  unfold GetDailyStats, GetUpdatesByDateRange. cbn [fst].
  rewrite lookup_insert_ne by discriminate. rewrite lookup_insert_eq.
  unfold sql_count. do 2 f_equal.
  rewrite filter_single_day, List.length_map.
  symmetry. apply Permutation_length, order_by_fetched_at_desc_perm.
Qed.

Section ReportProperties.

Variable generateHTML : ReportData -> string * error.
Variable date_text : Z -> string.
Variable Join : string -> string -> string.
Variable WriteFile : string -> string -> error.

(** X16.  When [GenerateDailyReport] returns nil it has written one file,
    named [report_<date>.html] in the output directory, whose content is
    the rendering of the updates of the day as the last query finds
    them, most recent first.  As the table only grows between the three
    queries, the daily total never exceeds the number of listed updates,
    and a source has a card only if an update of it is listed, with a
    total that never exceeds their number.  When nothing is inserted
    between the queries (as in the report command, which runs before
    the worker is started) the figures are exact: the total is the
    number of listed updates and a source has a card exactly when an
    update of it is listed, with their number as its total. *)
Theorem GenerateDailyReport_writes_consistent_report
  (r : Reporter) (date : Time) (seen a b : Store) (path html : string) :
  GenerateDailyReport generateHTML date_text Join WriteFile r date
    seen (seen ++ a) ((seen ++ a) ++ b)
  = (Some (path, html), None) ->
  path = Join (rep_outputDir r)
              ("report_" +:+ date_text (format_date date) +:+ ".html")
  /\ WriteFile path html = None
  /\ exists data,
       generateHTML data = (html, None)
       /\ rd_Date data = format_date date
       /\ rd_Sources data = Config.Sources (rep_config r)
       /\ rd_Updates data
          = fst (GetUpdatesByDateRange ((seen ++ a) ++ b) date date)
       /\ StronglySorted most_recent_first (rd_Updates data)
       /\ (exists total,
             rd_DailyStats data !! "total_updates" = Some total
             /\ total <= Z.of_nat (List.length (rd_Updates data))
             /\ (a = [] -> b = [] ->
                 total = Z.of_nat (List.length (rd_Updates data))))
       /\ forall sourceID,
            match rd_SourceStats data !! sourceID with
            | None => b = [] -> updates_of sourceID (rd_Updates data) = []
            | Some entry =>
                updates_of sourceID (rd_Updates data) <> []
                /\ exists n,
                     entry !! "total_updates" = Some n
                     /\ n <= Z.of_nat
                               (List.length
                                  (updates_of sourceID (rd_Updates data)))
                     /\ (b = [] ->
                         n = Z.of_nat
                               (List.length
                                  (updates_of sourceID (rd_Updates data))))
            end.
Proof.
  unfold GenerateDailyReport.
  set (data := {| rd_Date := format_date date;
                  rd_DailyStats := fst (GetDailyStats seen date);
                  rd_SourceStats := fst (GetSourceStats (seen ++ a) date);
                  rd_Updates :=
                    fst (GetUpdatesByDateRange ((seen ++ a) ++ b) date date);
                  rd_Sources := Config.Sources (rep_config r) |}).
  change (GetDailyStats seen date)
    with (fst (GetDailyStats seen date), @None string).
  change (GetSourceStats (seen ++ a) date)
    with (fst (GetSourceStats (seen ++ a) date), @None string).
  change (GetUpdatesByDateRange ((seen ++ a) ++ b) date date)
    with (fst (GetUpdatesByDateRange ((seen ++ a) ++ b) date date),
          @None string).
  cbv iota beta zeta. fold data.
  destruct (generateHTML data) as [content [err|]] eqn:Hgen; [discriminate|].
  destruct (WriteFile _ content) as [err|] eqn:Hw; [discriminate|].
  intros H. inversion H; subst path html.
  split; [reflexivity|]. split; [exact Hw|].
  exists data. split; [exact Hgen|]. split; [reflexivity|].
  split; [reflexivity|]. split; [reflexivity|]. split; [|split].
  - apply scan11_sorted, order_by_fetched_at_desc_sorted.
  - exists (Z.of_nat (List.length (fst (GetUpdatesByDateRange seen date date)))).
    unfold data. cbn [rd_DailyStats rd_Updates].
    split; [apply daily_total_listed|]. split.
    + rewrite <- List.app_assoc.
      destruct (listed_grows seen (a ++ b) date) as [Hle _]. lia.
    + intros -> ->. now rewrite !List.app_nil_r.
  - intros sourceID. unfold data. cbn [rd_SourceStats rd_Updates].
    pose proof (source_total_counts_listed (seen ++ a) date sourceID) as Hc.
    cbv zeta in Hc.
    destruct (listed_grows (seen ++ a) b date) as [_ Hle].
    specialize (Hle sourceID).
    destruct (fst (GetSourceStats (seen ++ a) date) !! sourceID) as [entry|].
    + destruct Hc as [Hne Htotal]. split.
      * intros Hnil. rewrite Hnil in Hle. apply Hne.
        apply List.length_zero_iff_nil.
        change (List.length (@nil Update)) with 0%nat in Hle. lia.
      * eexists. split; [exact Htotal|]. split; [lia|].
        intros ->. now rewrite List.app_nil_r.
    + intros ->. now rewrite List.app_nil_r.
Qed.

End ReportProperties.

Lemma GenerateDailyReport_writes_consistent_report_witness :
  "./reports/report_2024-01-01.html"
  = sample_Join
      (rep_outputDir
         (NewReporter sample_config (GetReportingOutputDir sample_config)))
      ("report_" +:+ sample_date_text (format_date stats_date) +:+ ".html")
  /\ sample_WriteFile "./reports/report_2024-01-01.html" "<html></html>" = None
  /\ exists data,
       sample_generateHTML data = ("<html></html>", None)
       /\ rd_Date data = format_date stats_date
       /\ rd_Sources data = Config.Sources sample_config
       /\ rd_Updates data
          = fst (GetUpdatesByDateRange ((stats_store ++ []) ++ [])
                                      stats_date stats_date)
       /\ StronglySorted most_recent_first (rd_Updates data)
       /\ (exists total,
             rd_DailyStats data !! "total_updates" = Some total
             /\ total <= Z.of_nat (List.length (rd_Updates data))
             /\ (@nil Row = [] -> @nil Row = [] ->
                 total = Z.of_nat (List.length (rd_Updates data))))
       /\ forall sourceID,
            match rd_SourceStats data !! sourceID with
            | None =>
                @nil Row = [] -> updates_of sourceID (rd_Updates data) = []
            | Some entry =>
                updates_of sourceID (rd_Updates data) <> []
                /\ exists n,
                     entry !! "total_updates" = Some n
                     /\ n <= Z.of_nat
                               (List.length
                                  (updates_of sourceID (rd_Updates data)))
                     /\ (@nil Row = [] ->
                         n = Z.of_nat
                               (List.length
                                  (updates_of sourceID (rd_Updates data))))
            end.
Proof.
  apply (GenerateDailyReport_writes_consistent_report
           sample_generateHTML sample_date_text sample_Join sample_WriteFile
           (NewReporter sample_config (GetReportingOutputDir sample_config))
           stats_date stats_store [] []).
  reflexivity.
Defined.

(** ** The entries of the scheduler *)

Section SchedulingProperties.

Variable Schedule : Type.
Variable Parse : string -> option Schedule.

Lemma scrape_entries_list (sources : list Source) :
  forall entries : list (Schedule * Job),
    fold_left
      (fun entries src =>
         fst (AddFunc_with Schedule Parse entries (Cron src) (ScrapeJob src)))
      sources entries
    = entries
      ++ flat_map
           (fun src =>
              match Parse (Cron src) with
              | Some sched => [(sched, ScrapeJob src)]
              | None => []
              end)
           sources.
Proof.
  induction sources as [|src sources IH]; intros entries; simpl.
  - now rewrite List.app_nil_r.
  - rewrite IH. unfold AddFunc_with.
    destruct (Parse (Cron src)); simpl.
    + now rewrite <- List.app_assoc.
    + reflexivity.
Qed.

(** X17.  Whatever expressions the parser of the scheduler accepts,
    [main] registers one entry for every source whose expression it
    accepts, in the order of the sources and with the schedule parsed
    from that expression, none for a source whose expression it rejects
    (the error is logged and the loop goes on), and after them the
    report entry, with the schedule parsed from ["59 23 * * * *"].  So
    the job of a source is registered exactly when the source is in the
    list and its expression is accepted. *)
Theorem register_entries_jobs (sources : list Source) :
  register_entries_with Schedule Parse sources
  = flat_map
      (fun src =>
         match Parse (Cron src) with
         | Some sched => [(sched, ScrapeJob src)]
         | None => []
         end)
      sources
    ++ match Parse "59 23 * * * *" with
       | Some sched => [(sched, ReportJob)]
       | None => []
       end
  /\ (forall src sched,
        In (sched, ScrapeJob src) (register_entries_with Schedule Parse sources)
        <-> In src sources /\ Parse (Cron src) = Some sched)
  /\ (forall sched,
        In (sched, ReportJob) (register_entries_with Schedule Parse sources)
        <-> Parse "59 23 * * * *" = Some sched).
Proof.
  assert (H : register_entries_with Schedule Parse sources
              = flat_map
                  (fun src =>
                     match Parse (Cron src) with
                     | Some sched => [(sched, ScrapeJob src)]
                     | None => []
                     end)
                  sources
                ++ match Parse "59 23 * * * *" with
                   | Some sched => [(sched, ReportJob)]
                   | None => []
                   end).
  { unfold register_entries_with. rewrite scrape_entries_list. simpl.
    unfold AddFunc_with, report_spec.
    destruct (Parse "59 23 * * * *"); simpl; trivial.
    now rewrite List.app_nil_r. }
  split; [exact H|]. rewrite H. clear H. split.
  - intros src sched. rewrite List.in_app_iff, List.in_flat_map. split.
    + intros [(src' & Hin & Hsrc)|Hrep].
      * destruct (Parse (Cron src')) as [sched'|] eqn:E; simpl in Hsrc;
          [|contradiction].
        destruct Hsrc as [Heq|[]]. inversion Heq; subst. now split.
      * destruct (Parse "59 23 * * * *"); simpl in Hrep;
          [destruct Hrep as [Heq|[]]; discriminate | contradiction].
    + intros [Hin Hparse]. left. exists src. split; trivial.
      rewrite Hparse. now left.
  - intros sched. rewrite List.in_app_iff, List.in_flat_map. split.
    + intros [(src' & Hin & Hsrc)|Hrep].
      * destruct (Parse (Cron src')); simpl in Hsrc; [|contradiction].
        destruct Hsrc as [Heq|[]]. discriminate.
      * destruct (Parse "59 23 * * * *"); simpl in Hrep; [|contradiction].
        destruct Hrep as [Heq|[]]. now inversion Heq.
    + intros Hparse. right. rewrite Hparse. now left.
Qed.

End SchedulingProperties.

(** With the six-field parser of the model the registrations are those of
    [register_entries]. *)
Lemma register_entries_with_parser (sources : list Source) :
  register_entries sources
  = register_entries_with SpecSchedule Parse_WithSeconds sources.
Proof. reflexivity. Qed.

(** The five-field expression of the README is rejected, so a source
    configured with it is never scheduled. *)
Example five_field_source_not_scheduled :
  schedulable five_field_source = false
  /\ List.map snd (register_entries [five_field_source; plain_source])
     = [ScrapeJob plain_source; ReportJob].
Proof. split; vm_compute; reflexivity. Qed.

(** ** The sources of the configuration *)

Lemma range_values_length {V : Type} (m : gmap string V) :
  List.length (range_values m) = size m.
Proof. unfold range_values. rewrite List.length_map. apply length_map_to_list. Qed.

Lemma range_values_In {V : Type} (m : gmap string V) (v : V) :
  In v (range_values m) <-> exists key, m !! key = Some v.
Proof.
  unfold range_values. rewrite List.in_map_iff. split.
  - intros ([key v'] & <- & Hin). exists key.
    apply elem_of_map_to_list. now apply list_elem_of_In.
  - intros (key & Hkey). exists (key, v). split; trivial.
    apply list_elem_of_In. now apply elem_of_map_to_list.
Qed.

Section ConfigProperties.

Variable ParseDuration : string -> option Z.

Lemma convertToSource_says (c : Config.t) (srcConfig : SourceConfig.t) (src : Source) :
  says_source ParseDuration c srcConfig src
  <-> src = convertToSource ParseDuration c srcConfig.
Proof.
  unfold says_source. split.
  - destruct src as [id url cron js retries timeout]. simpl.
    intros (-> & -> & -> & -> & -> & ->). reflexivity.
  - intros ->. simpl. repeat split; reflexivity.
Qed.

(** X18.  [GetSources] returns the conversion of every entry of
    [sources], and of every entry of [test_sources] when the environment
    says [development], and nothing else: a source is returned exactly
    when it is what the configuration says for such an entry (the
    identifier, address, expression and rendering flag of the entry, not
    its key; the global retry budget in place of a zero; the timeout of
    the entry if it reads as a duration, else the global one, else
    zero).  Outside development it returns as many sources as [sources]
    has entries, in development as many as both maps together, and the
    sources of [sources] come first. *)
Theorem GetSources_from_config (c : Config.t) (env : string) :
  List.length (GetSources ParseDuration c env)
  = (if String.eqb env "development"
     then (size (Config.Sources c) + size (Config.TestSources c))%nat
     else size (Config.Sources c))
  /\ (forall src,
        In src (GetSources ParseDuration c env)
        <-> exists key srcConfig,
              (Config.Sources c !! key = Some srcConfig
               \/ (env = "development"
                   /\ Config.TestSources c !! key = Some srcConfig))
              /\ says_source ParseDuration c srcConfig src)
  /\ (forall src,
        In src (firstn (size (Config.Sources c))
                       (GetSources ParseDuration c env))
        <-> exists key srcConfig,
              Config.Sources c !! key = Some srcConfig
              /\ says_source ParseDuration c srcConfig src).
Proof.
  assert (Hmap : forall (m : gmap string SourceConfig.t) src,
             In src (List.map (convertToSource ParseDuration c) (range_values m))
             <-> exists key srcConfig,
                   m !! key = Some srcConfig
                   /\ says_source ParseDuration c srcConfig src).
  { intros m src. rewrite List.in_map_iff. split.
    - intros (sc & <- & Hsc). apply range_values_In in Hsc.
      destruct Hsc as (key & Hkey). exists key, sc. split; trivial.
      now apply convertToSource_says.
    - intros (key & sc & Hkey & Hsays). exists sc. split.
      + symmetry. now apply convertToSource_says.
      + apply range_values_In. now exists key. }
  unfold GetSources. split; [|split].
  - destruct (String.eqb env "development").
    + now rewrite List.length_app, !List.length_map, !range_values_length.
    + now rewrite List.length_map, range_values_length.
  - intros src. destruct (String.eqb env "development") eqn:E.
    + apply String.eqb_eq in E. rewrite List.in_app_iff, !Hmap. split.
      * intros [(key & sc & Hkey & Hsays)|(key & sc & Hkey & Hsays)];
          exists key, sc; split; auto.
      * intros (key & sc & [Hkey|[_ Hkey]] & Hsays);
          [left | right]; exists key, sc; split; trivial.
    + apply String.eqb_neq in E. rewrite Hmap. split.
      * intros (key & sc & Hkey & Hsays). exists key, sc. split; auto.
      * intros (key & sc & [Hkey|[Henv _]] & Hsays); [|contradiction].
        exists key, sc. split; trivial.
  - intros src. rewrite <- Hmap.
    assert (Hlen : List.length (List.map (convertToSource ParseDuration c)
                                         (range_values (Config.Sources c)))
                   = size (Config.Sources c))
      by now rewrite List.length_map, range_values_length.
    destruct (String.eqb env "development").
    + rewrite <- Hlen, List.firstn_app, Nat.sub_diag, List.firstn_all.
      simpl. now rewrite List.app_nil_r.
    + now rewrite <- Hlen, List.firstn_all.
Qed.

End ConfigProperties.

Example GetSources_sample :
  List.map ID (GetSources sample_ParseDuration sample_config "production")
  = ["law_ministry"]
  /\ List.map ID (GetSources sample_ParseDuration sample_config "development")
     = ["law_ministry"; "httpbin_test"]
  /\ List.map MaxRetries
       (GetSources sample_ParseDuration sample_config "development")
     = [3; 2]
  /\ List.map Timeout
       (GetSources sample_ParseDuration sample_config "development")
     = [30000000000; 30000000000].
Proof. repeat split; vm_compute; reflexivity. Qed.

(** ** What the worker leaves in the table *)

Lemma latest_of_larger_table (s added : Store) (sourceID : string) (u : Update) :
  fst (GetLatestUpdateBySource s sourceID) = Some u ->
  exists u',
    fst (GetLatestUpdateBySource (s ++ added) sourceID) = Some u'
    /\ FetchedAt u <= FetchedAt u'.
Proof.
  unfold GetLatestUpdateBySource.
  destruct (order_by_fetched_at_desc (List.filter (successful_of sourceID) s))
    as [|r rest] eqn:Heq; [discriminate|].
  simpl. intros Hu. inversion Hu; subst u.
  apply order_by_fetched_at_desc_head in Heq. destruct Heq as [Hin _].
  destruct (order_by_fetched_at_desc
              (List.filter (successful_of sourceID) (s ++ added)))
    as [|r' rest'] eqn:Heq'.
  - apply order_by_fetched_at_desc_nil in Heq'.
    rewrite List.filter_app in Heq'.
    destruct (List.filter (successful_of sourceID) s); [destruct Hin|].
    discriminate.
  - apply order_by_fetched_at_desc_head in Heq'. destruct Heq' as [_ Hmax].
    exists (scan8 r'). split; [reflexivity|].
    simpl. apply parse_rfc3339_mono, Hmax.
    rewrite List.filter_app. apply List.in_or_app. now left.
Qed.

(** X19.  The latest successful update of a source never goes back in
    time: whatever the worker handles afterwards, a source that had a
    latest update still has one, fetched no earlier. *)
Theorem latest_never_goes_back
  (updates : list Update) (s : Store) (sourceID : string) (u : Update) :
  fst (GetLatestUpdateBySource s sourceID) = Some u ->
  exists u',
    fst (GetLatestUpdateBySource (fst (worker s updates)) sourceID) = Some u'
    /\ FetchedAt u <= FetchedAt u'.
Proof.
  intros Hu. destruct (worker_extends updates s) as (added & ->).
  now apply latest_of_larger_table.
Qed.

Lemma latest_never_goes_back_witness :
  exists u',
    fst (GetLatestUpdateBySource
           (fst (worker digest_store [first_failure; digest_update])) "s1")
    = Some u'
    /\ FetchedAt (persisted8 digest_update) <= FetchedAt u'.
Proof.
  apply (latest_never_goes_back [first_failure; digest_update] digest_store "s1").
  reflexivity.
Defined.

Lemma hash_stored_app h (s added : Store) :
  hash_stored h s -> hash_stored h (s ++ added).
Proof.
  intros (r & Hin & Hr). exists r. split; trivial.
  apply List.in_or_app. now left.
Qed.

(** After a step that returns, the hash of the update is in the table:
    it was there, or the INSERT put it there. *)
Lemma worker_step_stores_hash s u hd :
  snd (worker_step s u) = Returns hd ->
  hash_stored (Hash u) (fst (worker_step s u)).
Proof.
  destruct (existsb (hash_is (Hash u)) s) eqn:E.
  - apply hash_stored_existsb in E. intros _.
    destruct (worker_step_store s u) as [->| ->]; trivial.
    now apply hash_stored_app.
  - assert (Hno : ~ hash_stored (Hash u) s)
      by (rewrite hash_stored_existsb; congruence).
    assert (Hs : fst (worker_step s u) = s ++ [row_of_update s u]).
    { unfold worker_step.
      rewrite (GetUpdateByHash_missing s (Hash u) Hno).
      assert (Hsave : fst (save_and_log s u) = s ++ [row_of_update s u]).
      { unfold save_and_log. rewrite (SaveUpdate_fresh s u Hno).
        destruct (Success u); trivial.
        destruct (slice_to 8 (Hash u)); trivial. }
      destruct (negb (String.eqb (Hash u) "")); exact Hsave. }
    intros _. rewrite Hs. exists (row_of_update s u). split.
    + apply List.in_or_app. right. now left.
    + reflexivity.
Qed.

Lemma worker_stores_every_hash (updates : list Update) :
  forall s : Store,
    snd (worker s updates) = Returns tt ->
    forall u, In u updates -> hash_stored (Hash u) (fst (worker s updates)).
Proof.
  induction updates as [|u0 rest IH]; intros s Hret u Hin; [destruct Hin|].
  simpl in *.
  pose proof (worker_step_stores_hash s u0) as Hstep.
  destruct (worker_step s u0) as [s' [hd|msg]]; simpl in *; [|discriminate].
  destruct Hin as [<-|Hin].
  - destruct (worker_extends rest s') as (added & ->).
    apply hash_stored_app. now apply (Hstep hd).
  - now apply IH.
Qed.

Lemma rows_with_hash_stored h s :
  hash_stored h s -> (1 <= rows_with_hash h s)%nat.
Proof.
  intros Hst. destruct (rows_with_hash h s) eqn:E; [|lia].
  apply rows_with_hash_zero in E. apply hash_stored_existsb in Hst. congruence.
Qed.

(** X20.  Each content is stored exactly once: when the worker has
    handled a queue of loggable updates on a table in which no hash
    text occurs twice, the table holds exactly one row with the hash of
    each of them, however often and in whatever order the hash came
    (for the updates without a hash: one row with the empty text). *)
Theorem worker_stores_each_hash_once
  (updates : list Update) (s : Store) (u : Update) :
  Forall loggable updates ->
  (forall h, rows_with_hash h s <= 1)%nat ->
  In u updates ->
  rows_with_hash (Hash u) (fst (worker s updates)) = 1%nat.
Proof.
  intros Hlog Huniq Hin.
  assert (Hret : snd (worker s updates) = Returns tt).
  { apply (worker_returns_when_steps_return loggable); trivial.
    intros s0 u0 Hu0. now apply worker_step_loggable. }
  pose proof (worker_stores_every_hash updates s Hret u Hin) as Hst.
  apply rows_with_hash_stored in Hst.
  pose proof (worker_keeps_unique (Hash u) updates s (Huniq (Hash u))). lia.
Qed.

Lemma worker_stores_each_hash_once_witness :
  rows_with_hash (Hash digest_update)
    (fst (worker [] [digest_update; first_failure; digest_update]))
  = 1%nat.
Proof.
  apply (worker_stores_each_hash_once
           [digest_update; first_failure; digest_update] [] digest_update).
  - constructor; [right; simpl; lia|].
    constructor; [left; split; reflexivity|].
    constructor; [right; simpl; lia|].
    constructor.
  - intros h. unfold rows_with_hash. simpl. lia.
  - left. reflexivity.
Defined.

(** X21.  A later fetch of content that is already stored passes the
    check of the worker, is handed to [SaveUpdate], which skips it, and
    is then treated as saved (for a success the worker logs new
    content): the step ends as processed and the table is unchanged. *)
Theorem refetch_is_processed_without_a_row
  (s : Store) (u existing : Update) :
  (8 <= String.length (Hash u))%nat ->
  GetUpdateByHash s (Hash u) = (Some existing, true, None) ->
  FetchedAt existing < FetchedAt u ->
  worker_step s u = (s, Returns Processed)
  /\ SaveUpdate s u = Returns (s, None).
Proof.
  intros Hlen Hget Hlt.
  assert (Hne : Hash u <> "") by (apply length_nonempty; lia).
  assert (Hsave : SaveUpdate s u = Returns (s, None)).
  { unfold SaveUpdate. rewrite Hget.
    apply String.eqb_neq in Hne. rewrite Hne. simpl.
    now rewrite (slice_to_ok 8 (Hash u) Hlen). }
  split; trivial.
  unfold worker_step, save_and_log. rewrite Hget, Hsave.
  apply String.eqb_neq in Hne. rewrite Hne. simpl.
  unfold Before. apply Z.ltb_lt in Hlt. rewrite Hlt. simpl.
  rewrite (slice_to_ok 8 (Hash u) Hlen).
  destruct (Success u); reflexivity.
Qed.

Lemma refetch_is_processed_without_a_row_witness :
  worker_step digest_store
    (mkUpdate "s1" "https://example.org/" 1704070800000000000
       (Hash digest_update) [] 200 true 0 "" "" "" "")
  = (digest_store, Returns Processed)
  /\ SaveUpdate digest_store
       (mkUpdate "s1" "https://example.org/" 1704070800000000000
          (Hash digest_update) [] 200 true 0 "" "" "" "")
     = Returns (digest_store, None).
Proof.
  apply (refetch_is_processed_without_a_row
           digest_store
           (mkUpdate "s1" "https://example.org/" 1704070800000000000
              (Hash digest_update) [] 200 true 0 "" "" "" "")
           (persisted8 digest_update)).
  - simpl. lia.
  - reflexivity.
  - vm_compute. reflexivity.
Defined.

(** ** The scrapers and the worker together *)

Section ScraperPipeline.

Variable sha256_hex : list Byte.byte -> string.

Hypothesis sha256_hex_length :
  forall body, String.length (sha256_hex body) = 64%nat.

(** X10.  The scrapers and the worker fit together: whatever the network
    answers, the worker handles the updates of any sequence of calls of
    the dispatcher to the end without a panic, and afterwards the hash
    of every one of those updates is in the table (the empty text for
    the failures). *)
Theorem worker_completes_on_scraped
  (calls : list (World * Context * Source)) (s : Store) :
  let updates :=
    flat_map
      (fun c => fst (ScraperManager_Scrape sha256_hex (fst (fst c))
                                           (snd (fst c)) (snd c)))
      calls in
  snd (worker s updates) = Returns tt
  /\ forall u, In u updates -> hash_stored (Hash u) (fst (worker s updates)).
Proof.
  intros updates.
  assert (Hret : snd (worker s updates) = Returns tt).
  { apply (worker_returns_when_steps_return loggable).
    - intros s0 u Hu. now apply worker_step_loggable.
    - unfold updates. induction calls as [|c rest IH]; simpl; [constructor|].
      apply Forall_app. split; [|exact IH].
      now apply Scrape_sends_loggable. }
  split; trivial. now apply worker_stores_every_hash.
Qed.

End ScraperPipeline.

Lemma worker_completes_on_scraped_witness :
  let updates :=
    flat_map
      (fun c => fst (ScraperManager_Scrape sample_digest (fst (fst c))
                                           (snd (fst c)) (snd c)))
      [(sample_world, Background, plain_source);
       (sample_world, Canceled, plain_source);
       (sample_world, Background, rendered_source);
       (sample_world, Background, bad_url_source)] in
  snd (worker [] updates) = Returns tt
  /\ forall u, In u updates -> hash_stored (Hash u) (fst (worker [] updates)).
Proof.
  apply (worker_completes_on_scraped sample_digest).
  intros body. reflexivity.
Defined.

(** ** Saving an observation whose hash is already stored *)

Lemma worker_runs_unique (h : string) (queues : list (list Update)) :
  (rows_with_hash h (worker_runs queues) <= 1)%nat.
Proof.
  unfold worker_runs.
  assert (H : forall s, (rows_with_hash h s <= 1)%nat ->
                        (rows_with_hash h
                           (fold_left (fun s queue => fst (worker s queue))
                                      queues s) <= 1)%nat).
  { induction queues as [|q queues IH]; intros s Hs; simpl; trivial.
    apply IH. now apply worker_keeps_unique. }
  apply H. unfold rows_with_hash. simpl. lia.
Qed.

Section ObservationSaves.

Variable sha256_hex : list Byte.byte -> string.

Hypothesis sha256_hex_length :
  forall body, String.length (sha256_hex body) = 64%nat.

(** C1.  An observation is an update that a scraper sends; its hash is
    empty or the digest of its body.  When the hash of an observation
    is not empty and a row with that hash is stored, [SaveUpdate]
    returns nil and leaves the table as it is, without a second row.
    When the worker handles two updates with the same non-empty hash, in
    either order, on the table that any runs of the program have left,
    the table holds at most one row with that hash afterwards; and when
    the two are observations, the worker handles both to the end and
    the table then holds exactly one row with that hash. *)
Theorem SaveUpdate_idempotent_on_hash :
  (forall (w : World) (ctx : Context) (src : Source) (u : Update) (s : Store),
      In u (fst (ScraperManager_Scrape sha256_hex w ctx src)) ->
      Hash u <> "" ->
      hash_stored (Hash u) s ->
      SaveUpdate s u = Returns (s, None))
  /\ (forall (queues : list (list Update)) (o1 o2 : Update),
         Hash o1 <> "" -> Hash o1 = Hash o2 ->
         (rows_with_hash (Hash o1)
            (fst (worker (worker_runs queues) [o1; o2])) <= 1)%nat
         /\ (rows_with_hash (Hash o1)
               (fst (worker (worker_runs queues) [o2; o1])) <= 1)%nat)
  /\ (forall (queues : list (list Update))
             (w1 w2 : World) (ctx1 ctx2 : Context) (src1 src2 : Source)
             (o1 o2 : Update),
         In o1 (fst (ScraperManager_Scrape sha256_hex w1 ctx1 src1)) ->
         In o2 (fst (ScraperManager_Scrape sha256_hex w2 ctx2 src2)) ->
         Hash o1 <> "" -> Hash o1 = Hash o2 ->
         snd (worker (worker_runs queues) [o1; o2]) = Returns tt
         /\ rows_with_hash (Hash o1)
              (fst (worker (worker_runs queues) [o1; o2])) = 1%nat
         /\ snd (worker (worker_runs queues) [o2; o1]) = Returns tt
         /\ rows_with_hash (Hash o1)
              (fst (worker (worker_runs queues) [o2; o1])) = 1%nat).
Proof.
  assert (Hsent : forall w ctx src u,
             In u (fst (ScraperManager_Scrape sha256_hex w ctx src)) ->
             loggable u).
  { intros w ctx src u Hin.
    pose proof (Scrape_sends_loggable sha256_hex sha256_hex_length w ctx src)
      as Hall.
    rewrite List.Forall_forall in Hall. now apply Hall. }
  assert (Hboth : forall queues updates u,
             Forall loggable updates -> In u updates ->
             snd (worker (worker_runs queues) updates) = Returns tt
             /\ rows_with_hash (Hash u)
                  (fst (worker (worker_runs queues) updates)) = 1%nat).
  { intros queues updates u Hlog Hin.
    assert (Hret : snd (worker (worker_runs queues) updates) = Returns tt).
    { apply (worker_returns_when_steps_return loggable); trivial.
      intros s0 u0 Hu0. now apply worker_step_loggable. }
    split; trivial.
    pose proof (worker_stores_every_hash updates _ Hret u Hin) as Hst.
    apply rows_with_hash_stored in Hst.
    pose proof (worker_keeps_unique (Hash u) updates _
                  (worker_runs_unique (Hash u) queues)).
    lia. }
  split; [|split].
  - intros w ctx src u s Hin Hne Hst.
    apply SaveUpdate_known_hash; trivial.
    destruct (Hsent w ctx src u Hin) as [[Hempty _]|Hlen];
      [contradiction | exact Hlen].
  - intros queues o1 o2 _ _.
    split; apply worker_keeps_unique, worker_runs_unique.
  - intros queues w1 w2 ctx1 ctx2 src1 src2 o1 o2 Hin1 Hin2 _ _.
    pose proof (Hsent _ _ _ _ Hin1) as Hl1.
    pose proof (Hsent _ _ _ _ Hin2) as Hl2.
    destruct (Hboth queues [o1; o2] o1) as [Hr1 Hc1];
      [constructor; [exact Hl1 | constructor; [exact Hl2 | constructor]]
      | now left |].
    destruct (Hboth queues [o2; o1] o1) as [Hr2 Hc2];
      [constructor; [exact Hl2 | constructor; [exact Hl1 | constructor]]
      | right; now left |].
    split; [exact Hr1|]. split; [exact Hc1|]. split; [exact Hr2 | exact Hc2].
Qed.

End ObservationSaves.

Lemma SaveUpdate_idempotent_on_hash_witness :
  SaveUpdate scraped_store scraped_update = Returns (scraped_store, None)
  /\ (rows_with_hash (Hash scraped_update)
        (fst (worker (worker_runs [[first_failure]; [scraped_update]])
                     [scraped_update; digest_update])) <= 1)%nat
  /\ rows_with_hash (Hash scraped_update)
       (fst (worker (worker_runs [[first_failure]])
                    [scraped_update; scraped_update])) = 1%nat.
Proof.
  split; [|split].
  - apply (proj1 (SaveUpdate_idempotent_on_hash
                    sample_digest (fun body => eq_refl))
                 sample_world Background plain_source).
    + left. reflexivity.
    + discriminate.
    + exists (row_of_update [] scraped_update). split; [left|]; reflexivity.
  - apply (proj1 (proj2 (SaveUpdate_idempotent_on_hash
                           sample_digest (fun body => eq_refl)))
                 [[first_failure]; [scraped_update]]
                 scraped_update digest_update).
    + discriminate.
    + reflexivity.
  - apply (proj2 (proj2 (SaveUpdate_idempotent_on_hash
                           sample_digest (fun body => eq_refl)))
                 [[first_failure]]
                 sample_world sample_world Background Background
                 plain_source plain_source
                 scraped_update scraped_update).
    + left. reflexivity.
    + left. reflexivity.
    + discriminate.
    + reflexivity.
Defined.
